(** * SkyCast AI: the weather normaliser and the AI orchestration layer

    A shallow embedding of [services/weatherService.ts],
    [services/geminiService.ts], the [WeatherIcon] switch of
    [components/Icons.tsx] and the state handlers of [App.tsx]
    ([fetchData], [retryBackgroundGeneration], [handleSearch] and the
    countdown timer effect).

    Conventions.
    - A JavaScript [number] that carries a measurement is an IEEE-754
      double ([float]); a number that is an integral identifier or flag
      (WMO code, is-day flag, ids, the countdown) is a [Z].
    - [undefined] is [None]: a property or an array slot that may be
      absent has type [js A].
    - A JavaScript string is a [string], one character per code unit.
    - A promise that settles is a [Result]: [Ok v] when fulfilled,
      [Throw e] when rejected. An [async] function is an [Eff]: its
      result together with the trace of what it did to the outside
      (HTTP requests, SDK calls, callback invocations), in order;
      [try]/[catch] is [try_catch].
    - What the browser, the SDKs and the network answer (date parsing,
      [Math.floor], number printing, [JSON.parse], the text of a
      [TypeError], every response) is a [World]. *)

From Stdlib Require Import ZArith String Ascii List Bool Lia.
From Stdlib Require Import PrimFloat DecimalString.
From stdpp Require Import base option list gmap strings.

Local Open Scope string_scope.
Local Open Scope list_scope.
Local Open Scope Z_scope.

(* ================================================================= *)
(** * JavaScript values *)

Abbreviation js := option.

(** A loosely typed property, as the fields of a caught error are. *)
Inductive JsVal :=
| VUndefined
| VNum (n : Z)
| VStr (s : string).

(** [v === 'lit'] *)
Definition strictEqStr (v : JsVal) (lit : string) : bool :=
  match v with
  | VStr s => String.eqb s lit
  | _ => false
  end.

(** [v === n] *)
Definition strictEqNum (v : JsVal) (n : Z) : bool :=
  match v with
  | VNum m => Z.eqb m n
  | _ => false
  end.

(** A thrown value: an [Error]-like object. [error.message] is a string
    when present. *)
Record JsError := mkError {
  message : js string;
  status : JsVal;
  code : JsVal
}.

(** [new Error(msg)] *)
Definition newError (msg : string) : JsError :=
  {| message := Some msg; status := VUndefined; code := VUndefined |}.

Inductive Result (A : Type) :=
| Ok (a : A)
| Throw (e : JsError).
Arguments Ok {A} a.
Arguments Throw {A} e.

(** ** Strings *)

(** [s.startsWith(p)] *)
Definition startsWith (s p : string) : bool := String.prefix p s.

(** [s.includes(p)] *)
Fixpoint includes (s p : string) : bool :=
  String.prefix p s ||
  match s with
  | EmptyString => false
  | String _ rest => includes rest p
  end.

(** [s.slice(0, n)] *)
Definition slice0 (n : nat) (s : string) : string := String.substring 0 n s.

(** The white space [trim] removes, among the code units below 256. *)
Definition isWhiteSpace (c : ascii) : bool :=
  let n := nat_of_ascii c in
  ((9 <=? n) && (n <=? 13) || (n =? 32) || (n =? 160))%nat.

Fixpoint trimStart (s : string) : string :=
  match s with
  | String c rest => if isWhiteSpace c then trimStart rest else s
  | EmptyString => EmptyString
  end.

Fixpoint trimEnd (s : string) : string :=
  match s with
  | EmptyString => EmptyString
  | String c rest =>
      match trimEnd rest with
      | EmptyString => if isWhiteSpace c then EmptyString else String c EmptyString
      | rest' => String c rest'
      end
  end.

(** [s.trim()] *)
Definition trim (s : string) : string := trimEnd (trimStart s).

(** [s.split(' ')]: the pieces between single spaces; never empty. *)
Fixpoint split_space (s : string) : list string :=
  match s with
  | EmptyString => [EmptyString]
  | String c rest =>
      if Ascii.eqb c " "%char then EmptyString :: split_space rest
      else match split_space rest with
           | piece :: pieces => String c piece :: pieces
           | [] => [String c EmptyString]
           end
  end.

(** Truthiness of a string: [s || fallback]. *)
Definition orElseStr (s : js string) (fallback : string) : string :=
  match s with
  | Some (String c r) => String c r
  | _ => fallback
  end.

(** ** Numbers *)

(** A possibly-[undefined] operand of an arithmetic operator. *)
Definition toNumber (x : js float) : float := default nan x.

(** Truthiness of a number: [x || fallback]. *)
Definition orElseNum (x : js float) (fallback : float) : float :=
  match x with
  | Some v => if is_zero v || is_nan v then fallback else v
  | None => fallback
  end.

(** [arr.findIndex(p)]: the first index that satisfies [p], or -1. *)
Fixpoint findIndex {A} (p : A -> bool) (arr : list A) : Z :=
  match arr with
  | [] => -1
  | x :: rest =>
      if p x then 0
      else let k := findIndex p rest in
           if k =? -1 then -1 else k + 1
  end.

(* ================================================================= *)
(** * Upstream payloads

    A payload is untyped JSON: each section of [response.data] may be
    missing. Inside a section, a scalar field may be missing; the arrays
    the code indexes without [?.] are arrays, possibly too short. *)

Record Location := {
  latitude : js float;
  longitude : js float;
  name : js string;
  country : js string;
  id : js Z
}.

Record CurrentData := {
  time : js string;
  temperature_2m : js float;
  relative_humidity_2m : js float;
  apparent_temperature : js float;
  is_day : js Z;
  precipitation : js float;
  weather_code : js Z;
  cloud_cover : js float;
  wind_speed_10m : js float;
  wind_direction_10m : js float;
  surface_pressure : js float;
  dew_point_2m : js float;
  (* the fields of the air-quality endpoint's [current] *)
  us_aqi : js float;
  pm10 : js float;
  pm2_5 : js float;
  carbon_monoxide : js float;
  nitrogen_dioxide : js float;
  sulphur_dioxide : js float;
  ozone : js float
}.

Record DailyData := {
  daily_time : list string;
  daily_weather_code : list Z;
  temperature_2m_max : list float;
  temperature_2m_min : list float;
  sunrise : list string;
  sunset : list string;
  uv_index_max : list float;
  precipitation_probability_max : js (list float)
}.

Record HourlyData := {
  hourly_time : list string;
  hourly_temperature_2m : list float;
  hourly_weather_code : list Z;
  hourly_is_day : list Z;
  precipitation_probability : js (list float)
}.

(** [response.data] *)
Record ResponseData := {
  data_results : js (list Location);
  data_current : js CurrentData;
  data_daily : js DailyData;
  data_hourly : js HourlyData;
  utc_offset_seconds : js Z
}.

(** ** Requests *)

Inductive Param :=
| PStr (s : string)
| PInt (n : Z)
| PNum (x : js float).

Definition Params := list (string * Param).

(** The transport: [axios.get(url, { params })] settles with
    [response.data] or rejects. *)
Definition Axios := string -> Params -> Result ResponseData.

(** [params[key]] *)
Fixpoint param (key : string) (ps : Params) : js Param :=
  match ps with
  | [] => None
  | (k, v) :: rest => if String.eqb k key then Some v else param key rest
  end.

(* ================================================================= *)
(** * The outside world and the effect monad *)

(** ** The Gemini SDK ([@google/genai]) *)

Record GenRequest := {
  model : string;
  contents : string;
  (** [config.responseMimeType], when a JSON answer is asked for *)
  responseMimeType : js string
}.

Record InlineData := { data : js string }.
Record Part := { inlineData : js InlineData }.

Record GenResponse := {
  text : js string;
  (** [response.candidates?.[0]?.content?.parts] *)
  parts : js (list Part)
}.

(** An async iterable of chunks: the [chunk.text] of each chunk
    received, then either the end of the stream or a rejection. *)
Record Stream := {
  chunks : list (js string);
  failure : js JsError
}.

(** The object [parseSearchQuery] reads out of [JSON.parse], at the
    response schema [{ city: string, intent?: string }]. *)
Record Parsed := { p_city : string; p_intent : js string }.

(** Which of the two promises given to a [Promise.all] settles first; it
    only matters when both reject. *)
Inductive Side := FirstSettles | SecondSettles.

Record World := {
  (** [axios.get(url, { params })]: [response.data] or a rejection *)
  axios : Axios;
  (** [process.env.API_KEY] *)
  API_KEY : js string;
  (** [ai.models.generateContent] *)
  models_generateContent : GenRequest -> Result GenResponse;
  (** [ai.models.generateContentStream] *)
  models_generateContentStream : GenRequest -> Result Stream;
  (** [JSON.parse]; a [SyntaxError] on malformed text *)
  JSON_parse : string -> Result Parsed;
  (** [new Date().toISOString()] *)
  now_toISOString : string;
  (** [new Date(s).getTime()], NaN for an invalid date *)
  Date_getTime : string -> float;
  Math_floor : float -> float;
  (** a number inside a template literal *)
  Number_toString : float -> string;
  (** the error thrown on reading the named property of [undefined] *)
  TypeError : string -> JsError;
  (** which promise of each [Promise.all] settles first *)
  race_weather_aqi : Side;
  race_current_forecast : Side
}.

Inductive Event :=
| HttpGet (url : string) (params : Params)
| GenerateContent (req : GenRequest)
| GenerateContentStream (req : GenRequest)
| OnChunk (chunk : string).

Definition Eff (A : Type) : Type := Result A * list Event.

#[global] Instance Eff_ret : MRet Eff := fun _ a => (Ok a, []).

#[global] Instance Eff_bind : MBind Eff := fun _ _ k m =>
  match m with
  | (Ok a, done) => let '(r, more) := k a in (r, done ++ more)
  | (Throw e, done) => (Throw e, done)
  end.

(** The result type of a function that returns nothing. *)
Definition void : Type := unit.

Definition throw {A} (e : JsError) : Eff A := (Throw e, []).

Definition try_catch {A} (body : Eff A) (handler : JsError -> Eff A) : Eff A :=
  match body with
  | (Ok a, done) => (Ok a, done)
  | (Throw e, done) => let '(r, more) := handler e in (r, done ++ more)
  end.

(** An effect whose answer the world decides. *)
Definition perform {A} (ev : Event) (answer : Result A) : Eff A := (answer, [ev]).

(** [Promise.all([a, b])]: both run; it rejects with the rejection that
    comes first. The two operands run side by side: the trace lists the
    effects of the first before those of the second, which is not their
    order in time, so across the operands a trace is read as a bag (by
    membership, by filtering, up to permutation) and never by
    position. *)
Definition Promise_all {A B} (race : Side) (a : Eff A) (b : Eff B) : Eff (A * B) :=
  let '(ra, ea) := a in
  let '(rb, eb) := b in
  (match ra, rb with
   | Ok x, Ok y => Ok (x, y)
   | Throw e, Ok _ => Throw e
   | Ok _, Throw e => Throw e
   | Throw e1, Throw e2 =>
       match race with FirstSettles => Throw e1 | SecondSettles => Throw e2 end
   end, ea ++ eb).

(** Reading the property [prop] of [x]: a [TypeError] when [x] is
    [undefined]. *)
Definition reading {A} (W : World) (prop : string) (x : js A) : Eff A :=
  match x with
  | Some a => mret a
  | None => throw (TypeError W prop)
  end.

(** A possibly-[undefined] string inside a template literal. *)
Definition interpolate (s : js string) : string := default "undefined" s.

(* ================================================================= *)
(** * services/weatherService.ts *)

Inductive Unit := CELSIUS | FAHRENHEIT.

Definition GEO_URL := "https://geocoding-api.open-meteo.com/v1/search".
Definition WEATHER_URL := "https://api.open-meteo.com/v1/forecast".
Definition AQI_URL := "https://air-quality-api.open-meteo.com/v1/air-quality".

(** [isDay ? 'd' : 'n'] *)
Definition suffixOf (isDay : Z) : string := if isDay =? 0 then "n" else "d".

Definition getIconCode (wmoCode isDay : Z) : string :=
  let suffix := suffixOf isDay in
  if wmoCode =? 0 then "01" +:+ suffix
  else if wmoCode =? 1 then "02" +:+ suffix
  else if wmoCode =? 2 then "03" +:+ suffix
  else if wmoCode =? 3 then "04" +:+ suffix
  else if (wmoCode =? 45) || (wmoCode =? 48) then "50" +:+ suffix
  else if (51 <=? wmoCode) && (wmoCode <=? 57) then "09" +:+ suffix
  else if (61 <=? wmoCode) && (wmoCode <=? 67) then "10" +:+ suffix
  else if (80 <=? wmoCode) && (wmoCode <=? 82) then "09" +:+ suffix
  else if ((71 <=? wmoCode) && (wmoCode <=? 77)) || ((85 <=? wmoCode) && (wmoCode <=? 86))
       then "13" +:+ suffix
  else if (95 <=? wmoCode) && (wmoCode <=? 99) then "11" +:+ suffix
  else "01" +:+ suffix.

(** The object literal of [getDescription], in source order. *)
Definition codeEntries : list (Z * string) :=
  [ (0, "Clear sky");
    (1, "Mainly clear"); (2, "Partly cloudy"); (3, "Overcast");
    (45, "Fog"); (48, "Depositing rime fog");
    (51, "Light drizzle"); (53, "Moderate drizzle"); (55, "Dense drizzle");
    (56, "Light freezing drizzle"); (57, "Dense freezing drizzle");
    (61, "Slight rain"); (63, "Moderate rain"); (65, "Heavy rain");
    (66, "Light freezing rain"); (67, "Heavy freezing rain");
    (71, "Slight snow"); (73, "Moderate snow"); (75, "Heavy snow");
    (77, "Snow grains");
    (80, "Slight rain showers"); (81, "Moderate rain showers"); (82, "Violent rain showers");
    (85, "Slight snow showers"); (86, "Heavy snow showers");
    (95, "Thunderstorm"); (96, "Thunderstorm with slight hail");
    (99, "Thunderstorm with heavy hail") ].

Definition codes : gmap Z string := list_to_map codeEntries.

(** [codes[wmoCode] || 'Unknown'] *)
Definition getDescription (wmoCode : Z) : string :=
  orElseStr (codes !! wmoCode) "Unknown".

(** The two helpers on a slot that may be [undefined]: [undefined] is
    falsy, compares false with every number and is no key of [codes]. *)
Definition getIconCode_js (wmoCode isDay : js Z) : string :=
  match wmoCode with
  | Some c => getIconCode c (default 0 isDay)
  | None => "01" +:+ suffixOf (default 0 isDay)
  end.

Definition getDescription_js (wmoCode : js Z) : string :=
  match wmoCode with
  | Some c => getDescription c
  | None => "Unknown"
  end.

(** The [case] labels of the [WeatherIcon] switch (components/Icons.tsx):
    the icon codes the UI has a glyph for. *)
Definition iconCases : list string :=
  [ "01d"; "01n"; "02d"; "02n"; "03d"; "03n"; "04d"; "04n";
    "09d"; "09n"; "10d"; "10n"; "11d"; "11n"; "13d"; "13n"; "50d"; "50n" ].

(** The codes some [if] of [getIconCode] recognises. *)
Definition inBuckets (wmoCode : Z) : bool :=
  (wmoCode =? 0) || (wmoCode =? 1) || (wmoCode =? 2) || (wmoCode =? 3)
  || (wmoCode =? 45) || (wmoCode =? 48)
  || ((51 <=? wmoCode) && (wmoCode <=? 57))
  || ((61 <=? wmoCode) && (wmoCode <=? 67))
  || ((80 <=? wmoCode) && (wmoCode <=? 82))
  || ((71 <=? wmoCode) && (wmoCode <=? 77))
  || ((85 <=? wmoCode) && (wmoCode <=? 86))
  || ((95 <=? wmoCode) && (wmoCode <=? 99)).

(** ** The normalised records (types.ts) *)

Record WeatherCondition := {
  wc_id : js Z;
  wc_main : string;
  description : string;
  icon : string
}.

Record MainReadings := {
  temp : js float;
  feels_like : js float;
  temp_min : js float;
  temp_max : js float;
  pressure : js float;
  humidity : js float
}.

Record Wind := { speed : js float; deg : js float }.

Record Sys := {
  sys_type : Z;
  sys_id : Z;
  sys_country : string;
  sys_sunrise : float;
  sys_sunset : float
}.

Record AirQuality := {
  aq_us_aqi : js float;
  aq_pm2_5 : js float;
  aq_pm10 : js float;
  co : js float;
  no2 : js float;
  so2 : js float;
  o3 : js float
}.

Record CurrentWeather := {
  coord_lon : js float;
  coord_lat : js float;
  weather : list WeatherCondition;
  base : string;
  main : MainReadings;
  visibility : float;
  wind : Wind;
  clouds_all : js float;
  dt : js string;
  sys : Sys;
  uv_index : js float;
  cw_precipitation : js float;
  dew_point : js float;
  aqi : js AirQuality;
  timezone : js Z;
  cw_id : js Z;
  cw_name : js string;
  cod : Z
}.

Record ForecastMain := {
  fm_temp : float;
  fm_feels_like : js float;
  fm_temp_min : js float;
  fm_temp_max : js float;
  fm_pressure : float;
  sea_level : float;
  grnd_level : float;
  fm_humidity : float;
  temp_kf : float
}.

Record ForecastItem := {
  fi_dt : float;
  fi_main : ForecastMain;
  fi_weather : list WeatherCondition;
  fi_clouds_all : float;
  fi_wind_speed : float;
  fi_wind_deg : float;
  fi_wind_gust : float;
  fi_visibility : float;
  fi_pop : float;
  dt_txt : string
}.

Record HourlyItem := {
  hi_dt : float;
  hi_temp : js float;
  hi_weather : list WeatherCondition;
  hi_pop : js float
}.

Record City := {
  city_id : js Z;
  city_name : js string;
  city_lat : js float;
  city_lon : js float;
  city_country : js string;
  population : Z;
  city_timezone : js Z;
  city_sunrise : float;
  city_sunset : float
}.

Record ForecastResponse := {
  fr_cod : string;
  fr_message : Z;
  cnt : nat;
  fr_list : list ForecastItem;
  fr_hourly : list HourlyItem;
  fr_city : City
}.


(** ** The service functions *)

Section WeatherService.
Variable W : World.

Definition axios_get (url : string) (params : Params) : Eff ResponseData :=
  perform (HttpGet url params) (axios W url params).

(** [new Date(s).getTime()] for a slot that may be [undefined]. *)
Definition getTime (s : js string) : float :=
  match s with
  | Some s => Date_getTime W s
  | None => nan
  end.

Definition getCoordinates (city : string) : Eff Location :=
  response ← axios_get GEO_URL
    [ ("name", PStr city); ("count", PInt 1);
      ("language", PStr "en"); ("format", PStr "json") ];
  match data_results response with
  | None | Some [] => throw (newError ("City '" +:+ city +:+ "' not found."))
  | Some (first :: _) => mret first
  end.

Definition temperature_unit (unit : Unit) : string :=
  match unit with FAHRENHEIT => "fahrenheit" | CELSIUS => "celsius" end.

Definition currentWeatherParams (latitude longitude : js float) (unit : Unit) : Params :=
  [ ("latitude", PNum latitude);
    ("longitude", PNum longitude);
    ("current", PStr "temperature_2m,relative_humidity_2m,apparent_temperature,is_day,precipitation,rain,showers,snowfall,weather_code,cloud_cover,wind_speed_10m,wind_direction_10m,surface_pressure,dew_point_2m");
    ("daily", PStr "sunrise,sunset,uv_index_max");
    ("temperature_unit", PStr (temperature_unit unit));
    ("wind_speed_unit", PStr "ms");
    ("timezone", PStr "auto") ].

Definition airQualityParams (latitude longitude : js float) : Params :=
  [ ("latitude", PNum latitude);
    ("longitude", PNum longitude);
    ("current", PStr "us_aqi,pm10,pm2_5,carbon_monoxide,nitrogen_dioxide,sulphur_dioxide,ozone");
    ("timezone", PStr "auto") ].

Definition todayIndex : nat := 0.

(** The [try] block of [getCurrentWeather]. *)
Definition getCurrentWeather_try (city : string) (unit : Unit) : Eff CurrentWeather :=
  location ← getCoordinates city;
  '(weatherResponse, aqiResponse) ←
    Promise_all (race_weather_aqi W)
      (axios_get WEATHER_URL
         (currentWeatherParams (latitude location) (longitude location) unit))
      (axios_get AQI_URL (airQualityParams (latitude location) (longitude location)));
  current ← reading W "weather_code" (data_current weatherResponse);
  daily ← reading W "sunrise" (data_daily weatherResponse);
  air ← reading W "us_aqi" (data_current aqiResponse);
  mret
    {| coord_lon := longitude location;
       coord_lat := latitude location;
       weather :=
         [ {| wc_id := weather_code current;
              wc_main := getDescription_js (weather_code current);
              description := getDescription_js (weather_code current);
              icon := getIconCode_js (weather_code current) (is_day current) |} ];
       base := "stations";
       main :=
         {| temp := temperature_2m current;
            feels_like := apparent_temperature current;
            temp_min := temperature_2m current;
            temp_max := temperature_2m current;
            pressure := surface_pressure current;
            humidity := relative_humidity_2m current |};
       visibility := 10000%float;
       wind :=
         {| speed := wind_speed_10m current;
            deg := wind_direction_10m current |};
       clouds_all := cloud_cover current;
       dt := time current;
       sys :=
         {| sys_type := 1;
            sys_id := 0;
            sys_country := orElseStr (country location) "XX";
            sys_sunrise := (getTime (sunrise daily !! todayIndex) / 1000)%float;
            sys_sunset := (getTime (sunset daily !! todayIndex) / 1000)%float |};
       uv_index := uv_index_max daily !! todayIndex;
       cw_precipitation := precipitation current;
       dew_point := dew_point_2m current;
       aqi :=
         Some {| aq_us_aqi := us_aqi air;
                 aq_pm2_5 := pm2_5 air;
                 aq_pm10 := pm10 air;
                 co := carbon_monoxide air;
                 no2 := nitrogen_dioxide air;
                 so2 := sulphur_dioxide air;
                 o3 := ozone air |};
       timezone := utc_offset_seconds weatherResponse;
       cw_id := id location;
       cw_name := name location;
       cod := 200 |}.

Definition getCurrentWeather (city _apiKey : string) (unit : Unit) : Eff CurrentWeather :=
  try_catch (getCurrentWeather_try city unit)
    (fun error =>
       throw (newError (orElseStr (message error) "Failed to fetch weather data"))).

Definition forecastParams (latitude longitude : js float) (unit : Unit) : Params :=
  [ ("latitude", PNum latitude);
    ("longitude", PNum longitude);
    ("daily", PStr "weather_code,temperature_2m_max,temperature_2m_min,sunrise,sunset,precipitation_probability_max");
    ("hourly", PStr "temperature_2m,weather_code,is_day,precipitation_probability");
    ("temperature_unit", PStr (temperature_unit unit));
    ("wind_speed_unit", PStr "ms");
    ("timezone", PStr "auto") ].

(** The object pushed by iteration [i] of the daily loop. *)
Definition dailyItem (daily : DailyData) (i : nat) : ForecastItem :=
  let unixTime := (Math_floor W (getTime (daily_time daily !! i) / 1000) + 43200)%float in
  {| fi_dt := unixTime;
     fi_main :=
       {| fm_temp := ((toNumber (temperature_2m_max daily !! i)
                       + toNumber (temperature_2m_min daily !! i)) / 2)%float;
          fm_feels_like := temperature_2m_max daily !! i;
          fm_temp_min := temperature_2m_min daily !! i;
          fm_temp_max := temperature_2m_max daily !! i;
          fm_pressure := 1013%float;
          sea_level := 1013%float;
          grnd_level := 1013%float;
          fm_humidity := 50%float;
          temp_kf := 0%float |};
     fi_weather :=
       [ {| wc_id := daily_weather_code daily !! i;
            wc_main := getDescription_js (daily_weather_code daily !! i);
            description := getDescription_js (daily_weather_code daily !! i);
            icon := getIconCode_js (daily_weather_code daily !! i) (Some 1) |} ];
     fi_clouds_all := 0%float;
     fi_wind_speed := 0%float;
     fi_wind_deg := 0%float;
     fi_wind_gust := 0%float;
     fi_visibility := 10000%float;
     fi_pop := orElseNum (precipitation_probability_max daily ≫= (.!! i)) 0%float;
     dt_txt := interpolate (daily_time daily !! i) +:+ " 12:00:00" |}.

(** [for (let i = 0; i < Math.min(daily.time.length, 5); i++) list.push(...)],
    run for at most [fuel] iterations from [i]. *)
Fixpoint dailyLoop (daily : DailyData) (fuel i : nat) (items : list ForecastItem)
  : list ForecastItem :=
  match fuel with
  | O => items
  | S fuel' =>
      if (i <? Nat.min (length (daily_time daily)) 5)%nat
      then dailyLoop daily fuel' (S i) (items ++ [dailyItem daily i])
      else items
  end.

(** The object pushed by iteration [i] of the hourly loop. *)
Definition hourlyItem (hourly : HourlyData) (i : nat) : HourlyItem :=
  {| hi_dt := (getTime (hourly_time hourly !! i) / 1000)%float;
     hi_temp := hourly_temperature_2m hourly !! i;
     hi_weather :=
       [ {| wc_id := hourly_weather_code hourly !! i;
            wc_main := getDescription_js (hourly_weather_code hourly !! i);
            description := "";
            icon := getIconCode_js (hourly_weather_code hourly !! i)
                      (hourly_is_day hourly !! i) |} ];
     hi_pop := precipitation_probability hourly ≫= (.!! i) |}.

(** [for (let i = startIndex; i < startIndex + 24 && i < hourly.time.length; i++)
    hourlyList.push(...)], run for at most [fuel] iterations from [i]. *)
Fixpoint hourlyLoop (hourly : HourlyData) (startIndex : nat) (fuel i : nat)
    (hourlyList : list HourlyItem) : list HourlyItem :=
  match fuel with
  | O => hourlyList
  | S fuel' =>
      if ((i <? startIndex + 24) && (i <? length (hourly_time hourly)))%nat
      then hourlyLoop hourly startIndex fuel' (S i) (hourlyList ++ [hourlyItem hourly i])
      else hourlyList
  end.

(** [now.toISOString().slice(0, 13)] *)
Definition currentHourStr : string := slice0 13 (now_toISOString W).

Definition foundIndex (hourly : HourlyData) : Z :=
  findIndex (fun t => startsWith t currentHourStr) (hourly_time hourly).

(** [foundIndex !== -1 ? foundIndex : 0] *)
Definition startIndex (hourly : HourlyData) : Z :=
  if negb (foundIndex hourly =? -1) then foundIndex hourly else 0.

(** The daily loop runs at most 5 times and the hourly loop at most 24
    times, so these loops are run to their end. *)
Definition dailyList (daily : DailyData) : list ForecastItem :=
  dailyLoop daily 5 0 [].

Definition hourlyListOf (hourly : HourlyData) : list HourlyItem :=
  hourlyLoop hourly (Z.to_nat (startIndex hourly)) 24 (Z.to_nat (startIndex hourly)) [].

(** The [try] block of [getForecast]. *)
Definition getForecast_try (city : string) (unit : Unit) : Eff ForecastResponse :=
  location ← getCoordinates city;
  response ← axios_get WEATHER_URL
    (forecastParams (latitude location) (longitude location) unit);
  daily ← reading W "time" (data_daily response);
  let items := dailyList daily in
  hourly ← reading W "time" (data_hourly response);
  let hourlyList := hourlyListOf hourly in
  mret
    {| fr_cod := "200";
       fr_message := 0;
       cnt := length items;
       fr_list := items;
       fr_hourly := hourlyList;
       fr_city :=
         {| city_id := id location;
            city_name := name location;
            city_lat := latitude location;
            city_lon := longitude location;
            city_country := country location;
            population := 0;
            city_timezone := utc_offset_seconds response;
            city_sunrise := 0%float;
            city_sunset := 0%float |} |}.

Definition getForecast (city _apiKey : string) (unit : Unit) : Eff ForecastResponse :=
  try_catch (getForecast_try city unit)
    (fun error =>
       throw (newError (orElseStr (message error) "Failed to fetch forecast data"))).

(** [getIconUrl] *)
Definition getIconUrl (iconCode : string) : string :=
  "https://openweathermap.org/img/wn/" +:+ iconCode +:+ "@2x.png".

End WeatherService.

(* ================================================================= *)
(** * services/geminiService.ts *)

(** The character that a string literal cannot hold. *)
Definition dquote : string := String (ascii_of_nat 34) EmptyString.

(** Truthiness of a string or [undefined]. *)
Definition truthyStr (s : js string) : bool :=
  match s with
  | Some (String _ _) => true
  | _ => false
  end.

Record SceneResult := { imageData : js string; isQuotaError : bool }.

(** [error.status === 'RESOURCE_EXHAUSTED' || error.code === 429
     || error.message?.includes('429')] *)
Definition sceneQuotaSignal (error : JsError) : bool :=
  strictEqStr (status error) "RESOURCE_EXHAUSTED"
  || strictEqNum (code error) 429
  || match message error with
     | Some m => includes m "429"
     | None => false
     end.

(** [error.status === 'RESOURCE_EXHAUSTED' || error.code === 429] *)
Definition insightQuotaSignal (error : JsError) : bool :=
  strictEqStr (status error) "RESOURCE_EXHAUSTED" || strictEqNum (code error) 429.

Definition keyMissingChunk : string :=
  "Gemini API Key is missing. Please add it to your environment variables.".
Definition apologyChunk : string :=
  "I'm currently receiving too many requests. Please check back in a moment for your smart insights!".
Definition offlineChunk : string :=
  "Gemini is currently offline due to atmospheric interference (API Error).".

Section GeminiService.
Variable W : World.

Definition generateContent (req : GenRequest) : Eff GenResponse :=
  perform (GenerateContent req) (models_generateContent W req).

Definition generateContentStream (req : GenRequest) : Eff Stream :=
  perform (GenerateContentStream req) (models_generateContentStream W req).

(** The callback handed to [streamWeatherInsight]; each invocation is
    recorded in the trace. The callback [fetchData] passes appends to a
    string and sets a state cell: it does not throw. *)
Definition onChunk (chunk : string) : Eff void := perform (OnChunk chunk) (Ok (tt : void)).

(** A possibly-[undefined] number inside a template literal. *)
Definition showNumber (x : js float) : string :=
  match x with
  | Some v => Number_toString W v
  | None => "undefined"
  end.

Definition parsePrompt (query : string) : string :=
  "Analyze this weather search query: " +:+ dquote +:+ query +:+ dquote +:+ ". 
      Extract the target city name and any specific user intent (like checking for rain, cold, clothing advice, etc).
      If the query is just a city name, return it.
      If the city is a nickname (e.g. " +:+ dquote +:+ "Big Apple" +:+ dquote +:+ "), resolve it to the real city name.
      ".

Definition parseRequest (query : string) : GenRequest :=
  {| model := "gemini-2.5-flash";
     contents := parsePrompt query;
     responseMimeType := Some "application/json" |}.

(** 1. Intelligent Search Parsing *)
Definition parseSearchQuery (query : string) : Eff Parsed :=
  if negb (truthyStr (API_KEY W)) then mret {| p_city := query; p_intent := None |}
  else
    try_catch
      (response ← generateContent (parseRequest query);
       if truthyStr (text response)
       then (JSON_parse W (default "" (text response)), [])
       else mret {| p_city := query; p_intent := None |})
      (fun error => mret {| p_city := query; p_intent := None |}).

Definition scenePrompt (cityName : js string) (timeOfDay description : string) : string :=
  "
      A breathtaking, photorealistic, cinematic wide-angle photograph of "
  +:+ interpolate cityName +:+ " at " +:+ timeOfDay +:+ ".
      Weather conditions: " +:+ description +:+ ".
      Atmosphere: "
  +:+ (if String.eqb timeOfDay "night" then "city lights glowing, moody"
       else "natural lighting, vibrant") +:+ ".
      Style: High resolution, 8k, National Geographic style, wallpaper quality.
      Important: No text, no overlays, no UI elements. Just the pure scene.
    ".

(** [for (const part of ...) if (part.inlineData) return {...}], then
    the [return] after the loop. *)
Fixpoint firstInlineImage (ps : list Part) : SceneResult :=
  match ps with
  | [] => {| imageData := None; isQuotaError := false |}
  | part :: rest =>
      match inlineData part with
      | Some inline =>
          {| imageData := Some ("data:image/png;base64," +:+ interpolate (data inline));
             isQuotaError := false |}
      | None => firstInlineImage rest
      end
  end.

(** The request built from [weather.weather[0]]. *)
Definition sceneRequest (weather_ : CurrentWeather) (condition : WeatherCondition)
  : GenRequest :=
  let timeOfDay := if includes (icon condition) "n" then "night" else "day" in
  let description := description condition in
  let prompt := scenePrompt (cw_name weather_) timeOfDay description in
  {| model := "gemini-2.5-flash-image";
     contents := prompt;
     responseMimeType := None |}.

(** 2. Generative Background Image *)
Definition generateWeatherScene (weather_ : CurrentWeather) : Eff SceneResult :=
  if negb (truthyStr (API_KEY W)) then mret {| imageData := None; isQuotaError := false |}
  else
    try_catch
      (condition ← reading W "icon" (weather weather_ !! 0%nat);
       response ← generateContent (sceneRequest weather_ condition);
       mret (firstInlineImage (default [] (parts response))))
      (fun error =>
         if sceneQuotaSignal error
         then mret {| imageData := None; isQuotaError := true |}
         else mret {| imageData := None; isQuotaError := false |}).

Definition insightPrompt (weather_ : CurrentWeather) (condition : WeatherCondition)
    (unitLabel : string) (userIntent : js string) : string :=
  let aqi := aqi weather_ in
  "
      Act as a witty and highly intelligent weather assistant.
      
      Context:
      - City: " +:+ interpolate (cw_name weather_) +:+ "
      - Weather: " +:+ description condition +:+ "
      - Temp: " +:+ showNumber (temp (main weather_)) +:+ "°" +:+ unitLabel
  +:+ " (Feels like " +:+ showNumber (feels_like (main weather_)) +:+ "°)
      - Wind: " +:+ showNumber (speed (wind weather_)) +:+ " m/s
      - Humidity: " +:+ showNumber (humidity (main weather_)) +:+ "%
      - UV Index: "
  +:+ (match uv_index weather_ with
       | Some v => if is_zero v || is_nan v then "N/A" else Number_toString W v
       | None => "N/A"
       end) +:+ "
      - Air Quality (US AQI): "
  +:+ (match aqi with Some a => showNumber (aq_us_aqi a) | None => "N/A" end)
  +:+ " (PM2.5: "
  +:+ (match aqi with Some a => showNumber (aq_pm2_5 a) | None => "N/A" end) +:+ ")
      - User Intent: " +:+ dquote +:+ orElseStr userIntent "General update" +:+ dquote +:+ "

      Task:
      1. Analyze the " +:+ dquote +:+ "feels like" +:+ dquote
  +:+ " temperature, wind chill, and especially the Air Quality (AQI) and UV.
      2. If AQI is poor (>100), warn the user. If UV is high, suggest protection.
      3. Formulate practical advice for clothing and activities.
      4. Be concise (max 3-4 sentences) but conversational.

      Output:
      Just the final friendly response. No " +:+ dquote +:+ "Thinking..." +:+ dquote
  +:+ " prefixes.
    ".

(** [for await (const chunk of streamResult) { if (chunk.text) onChunk(chunk.text) }] *)
Fixpoint forAwaitChunks (received : list (js string)) : Eff void :=
  match received with
  | [] => mret tt
  | text_ :: rest =>
      (if truthyStr text_ then onChunk (default "" text_) else mret tt);;
      forAwaitChunks rest
  end.

Definition forAwait (streamResult : Stream) : Eff void :=
  forAwaitChunks (chunks streamResult);;
  match failure streamResult with
  | Some error => throw error
  | None => mret tt
  end.

(** The request built from the snapshot. *)
Definition insightRequest (weather_ : CurrentWeather) (condition : WeatherCondition)
    (unit : Unit) (userIntent : js string) : GenRequest :=
  let unitLabel := match unit with CELSIUS => "Celsius" | FAHRENHEIT => "Fahrenheit" end in
  let prompt := insightPrompt weather_ condition unitLabel userIntent in
  {| model := "gemini-2.5-flash";
     contents := prompt;
     responseMimeType := None |}.

(** 3. Smart Insights with Streaming *)
Definition streamWeatherInsight (weather_ : CurrentWeather) (unit : Unit)
    (userIntent : js string) : Eff void :=
  if negb (truthyStr (API_KEY W)) then onChunk keyMissingChunk
  else
    try_catch
      (condition ← reading W "description" (weather weather_ !! 0%nat);
       streamResult ← generateContentStream
         (insightRequest weather_ condition unit userIntent);
       forAwait streamResult)
      (fun error =>
         if insightQuotaSignal error then onChunk apologyChunk
         else onChunk offlineChunk).

End GeminiService.

(* ================================================================= *)
(** * App.tsx: the state of the [App] component and its handlers

    Each [useState] cell is a field. A handler is run to quiescence: the
    state it returns is the one reached when every promise it launched
    has settled, with no other handler interleaved; the trace lists what
    it did to the outside. [fetchData] does not await the insight and
    the scene generation; it launches them side by side, and its trace
    lists the one after the other: across them, as across the operands
    of [Promise_all], a trace is read as a bag and never by position.
    What a handler leaves behind is stated for a handler that runs on
    its own; overlapping handlers are not modelled. *)

Record AppState := {
  city : string;
  currentWeather : js CurrentWeather;
  forecast : js ForecastResponse;
  st_unit : Unit;
  loading : bool;
  error : js string;
  searchQuery : string;
  insight : string;
  loadingInsight : bool;
  bgImage : js string;
  loadingBg : bool;
  bgQuotaError : bool;
  retryCountdown : Z;
  userIntent : string;
  isListening : bool;
  isSpeaking : bool
}.

Definition initialState : AppState :=
  {| city := "New Delhi";
     currentWeather := None;
     forecast := None;
     st_unit := CELSIUS;
     loading := false;
     error := None;
     searchQuery := "";
     insight := "";
     loadingInsight := false;
     bgImage := None;
     loadingBg := false;
     bgQuotaError := false;
     retryCountdown := 0;
     userIntent := "";
     isListening := false;
     isSpeaking := false |}.

(** The [useState] setters. *)
Definition setCity (v : string) (st : AppState) : AppState :=
  {| city := v; currentWeather := currentWeather st; forecast := forecast st;
     st_unit := st_unit st; loading := loading st; error := error st;
     searchQuery := searchQuery st; insight := insight st;
     loadingInsight := loadingInsight st; bgImage := bgImage st;
     loadingBg := loadingBg st; bgQuotaError := bgQuotaError st;
     retryCountdown := retryCountdown st; userIntent := userIntent st;
     isListening := isListening st; isSpeaking := isSpeaking st |}.

Definition setCurrentWeather (v : js CurrentWeather) (st : AppState) : AppState :=
  {| city := city st; currentWeather := v; forecast := forecast st;
     st_unit := st_unit st; loading := loading st; error := error st;
     searchQuery := searchQuery st; insight := insight st;
     loadingInsight := loadingInsight st; bgImage := bgImage st;
     loadingBg := loadingBg st; bgQuotaError := bgQuotaError st;
     retryCountdown := retryCountdown st; userIntent := userIntent st;
     isListening := isListening st; isSpeaking := isSpeaking st |}.

Definition setForecast (v : js ForecastResponse) (st : AppState) : AppState :=
  {| city := city st; currentWeather := currentWeather st; forecast := v;
     st_unit := st_unit st; loading := loading st; error := error st;
     searchQuery := searchQuery st; insight := insight st;
     loadingInsight := loadingInsight st; bgImage := bgImage st;
     loadingBg := loadingBg st; bgQuotaError := bgQuotaError st;
     retryCountdown := retryCountdown st; userIntent := userIntent st;
     isListening := isListening st; isSpeaking := isSpeaking st |}.

Definition setUnit (v : Unit) (st : AppState) : AppState :=
  {| city := city st; currentWeather := currentWeather st; forecast := forecast st;
     st_unit := v; loading := loading st; error := error st;
     searchQuery := searchQuery st; insight := insight st;
     loadingInsight := loadingInsight st; bgImage := bgImage st;
     loadingBg := loadingBg st; bgQuotaError := bgQuotaError st;
     retryCountdown := retryCountdown st; userIntent := userIntent st;
     isListening := isListening st; isSpeaking := isSpeaking st |}.

Definition setLoading (v : bool) (st : AppState) : AppState :=
  {| city := city st; currentWeather := currentWeather st; forecast := forecast st;
     st_unit := st_unit st; loading := v; error := error st;
     searchQuery := searchQuery st; insight := insight st;
     loadingInsight := loadingInsight st; bgImage := bgImage st;
     loadingBg := loadingBg st; bgQuotaError := bgQuotaError st;
     retryCountdown := retryCountdown st; userIntent := userIntent st;
     isListening := isListening st; isSpeaking := isSpeaking st |}.

Definition setError (v : js string) (st : AppState) : AppState :=
  {| city := city st; currentWeather := currentWeather st; forecast := forecast st;
     st_unit := st_unit st; loading := loading st; error := v;
     searchQuery := searchQuery st; insight := insight st;
     loadingInsight := loadingInsight st; bgImage := bgImage st;
     loadingBg := loadingBg st; bgQuotaError := bgQuotaError st;
     retryCountdown := retryCountdown st; userIntent := userIntent st;
     isListening := isListening st; isSpeaking := isSpeaking st |}.

Definition setSearchQuery (v : string) (st : AppState) : AppState :=
  {| city := city st; currentWeather := currentWeather st; forecast := forecast st;
     st_unit := st_unit st; loading := loading st; error := error st; searchQuery := v;
     insight := insight st; loadingInsight := loadingInsight st; bgImage := bgImage st;
     loadingBg := loadingBg st; bgQuotaError := bgQuotaError st;
     retryCountdown := retryCountdown st; userIntent := userIntent st;
     isListening := isListening st; isSpeaking := isSpeaking st |}.

Definition setInsight (v : string) (st : AppState) : AppState :=
  {| city := city st; currentWeather := currentWeather st; forecast := forecast st;
     st_unit := st_unit st; loading := loading st; error := error st;
     searchQuery := searchQuery st; insight := v; loadingInsight := loadingInsight st;
     bgImage := bgImage st; loadingBg := loadingBg st; bgQuotaError := bgQuotaError st;
     retryCountdown := retryCountdown st; userIntent := userIntent st;
     isListening := isListening st; isSpeaking := isSpeaking st |}.

Definition setLoadingInsight (v : bool) (st : AppState) : AppState :=
  {| city := city st; currentWeather := currentWeather st; forecast := forecast st;
     st_unit := st_unit st; loading := loading st; error := error st;
     searchQuery := searchQuery st; insight := insight st; loadingInsight := v;
     bgImage := bgImage st; loadingBg := loadingBg st; bgQuotaError := bgQuotaError st;
     retryCountdown := retryCountdown st; userIntent := userIntent st;
     isListening := isListening st; isSpeaking := isSpeaking st |}.

Definition setBgImage (v : js string) (st : AppState) : AppState :=
  {| city := city st; currentWeather := currentWeather st; forecast := forecast st;
     st_unit := st_unit st; loading := loading st; error := error st;
     searchQuery := searchQuery st; insight := insight st;
     loadingInsight := loadingInsight st; bgImage := v; loadingBg := loadingBg st;
     bgQuotaError := bgQuotaError st; retryCountdown := retryCountdown st;
     userIntent := userIntent st; isListening := isListening st;
     isSpeaking := isSpeaking st |}.

Definition setLoadingBg (v : bool) (st : AppState) : AppState :=
  {| city := city st; currentWeather := currentWeather st; forecast := forecast st;
     st_unit := st_unit st; loading := loading st; error := error st;
     searchQuery := searchQuery st; insight := insight st;
     loadingInsight := loadingInsight st; bgImage := bgImage st; loadingBg := v;
     bgQuotaError := bgQuotaError st; retryCountdown := retryCountdown st;
     userIntent := userIntent st; isListening := isListening st;
     isSpeaking := isSpeaking st |}.

Definition setBgQuotaError (v : bool) (st : AppState) : AppState :=
  {| city := city st; currentWeather := currentWeather st; forecast := forecast st;
     st_unit := st_unit st; loading := loading st; error := error st;
     searchQuery := searchQuery st; insight := insight st;
     loadingInsight := loadingInsight st; bgImage := bgImage st;
     loadingBg := loadingBg st; bgQuotaError := v; retryCountdown := retryCountdown st;
     userIntent := userIntent st; isListening := isListening st;
     isSpeaking := isSpeaking st |}.

Definition setRetryCountdown (v : Z) (st : AppState) : AppState :=
  {| city := city st; currentWeather := currentWeather st; forecast := forecast st;
     st_unit := st_unit st; loading := loading st; error := error st;
     searchQuery := searchQuery st; insight := insight st;
     loadingInsight := loadingInsight st; bgImage := bgImage st;
     loadingBg := loadingBg st; bgQuotaError := bgQuotaError st; retryCountdown := v;
     userIntent := userIntent st; isListening := isListening st;
     isSpeaking := isSpeaking st |}.

Definition setUserIntent (v : string) (st : AppState) : AppState :=
  {| city := city st; currentWeather := currentWeather st; forecast := forecast st;
     st_unit := st_unit st; loading := loading st; error := error st;
     searchQuery := searchQuery st; insight := insight st;
     loadingInsight := loadingInsight st; bgImage := bgImage st;
     loadingBg := loadingBg st; bgQuotaError := bgQuotaError st;
     retryCountdown := retryCountdown st; userIntent := v;
     isListening := isListening st; isSpeaking := isSpeaking st |}.

Definition setIsSpeaking (v : bool) (st : AppState) : AppState :=
  {| city := city st; currentWeather := currentWeather st; forecast := forecast st;
     st_unit := st_unit st; loading := loading st; error := error st;
     searchQuery := searchQuery st; insight := insight st;
     loadingInsight := loadingInsight st; bgImage := bgImage st;
     loadingBg := loadingBg st; bgQuotaError := bgQuotaError st;
     retryCountdown := retryCountdown st; userIntent := userIntent st;
     isListening := isListening st; isSpeaking := v |}.

Section App.
Variable W : World.

(** The timer effect: one second after a render with a positive
    countdown, [setRetryCountdown(prev => prev - 1)]. *)
Definition timerTick (st : AppState) : AppState :=
  if 0 <? retryCountdown st then setRetryCountdown (retryCountdown st - 1) st else st.

Fixpoint timerTicks (seconds : nat) (st : AppState) : AppState :=
  match seconds with
  | O => st
  | S k => timerTicks k (timerTick st)
  end.

(** The callback [fetchData] hands to [streamWeatherInsight], applied to
    the chunks of a trace:
    [accumulatedText += chunk; setInsight(accumulatedText)]. *)
Fixpoint deliverChunks (events : list Event) (accumulatedText : string) (st : AppState)
  : AppState :=
  match events with
  | [] => st
  | OnChunk chunk :: rest =>
      let accumulatedText := accumulatedText +:+ chunk in
      deliverChunks rest accumulatedText (setInsight accumulatedText st)
  | _ :: rest => deliverChunks rest accumulatedText st
  end.

Definition fetchData (targetCity : string) (intent : js string) (st : AppState)
  : AppState * list Event :=
  let st := setLoading true st in
  let st := setError None st in
  let st := setInsight "" st in
  let st := setBgImage None st in
  let st := setBgQuotaError false st in
  let st := setRetryCountdown 0 st in
  let st := setIsSpeaking false st in
  match Promise_all (race_current_forecast W)
          (getCurrentWeather W targetCity "" (st_unit st))
          (getForecast W targetCity "" (st_unit st)) with
  | (Ok (weatherData, forecastData), fetched) =>
      let st := setCurrentWeather (Some weatherData) st in
      let st := setForecast (Some forecastData) st in
      let st := setCity targetCity st in
      (* AI operations *)
      let st := setLoadingInsight true st in
      let '(_, streamed) := streamWeatherInsight W weatherData (st_unit st) intent in
      let st := deliverChunks streamed "" st in
      let st := setLoadingInsight false st in
      let st := setLoadingBg true st in
      let '(scene, generated) := generateWeatherScene W weatherData in
      let st :=
        match scene with
        | Ok result =>
            if truthyStr (imageData result)
            then setBgQuotaError false (setBgImage (imageData result) st)
            else if isQuotaError result
            then setRetryCountdown 86400 (setBgQuotaError true st)
            else st
        | Throw _ => st
        end in
      let st := setLoadingBg false st in
      (setLoading false st, fetched ++ streamed ++ generated)
  | (Throw err, fetched) =>
      let st := setError (Some (orElseStr (message err)
                  "Could not find weather data. Please try another city.")) st in
      let st := setCurrentWeather None st in
      let st := setForecast None st in
      (setLoading false st, fetched)
  end.

Definition retryBackgroundGeneration (st : AppState) : AppState * list Event :=
  match currentWeather st with
  | None => (st, [])
  | Some weather_ =>
      if 0 <? retryCountdown st then (st, [])
      else
        let st := setLoadingBg true st in
        let '(scene, generated) := generateWeatherScene W weather_ in
        let st :=
          match scene with
          | Ok result =>
              if truthyStr (imageData result)
              then setRetryCountdown 0 (setBgQuotaError false (setBgImage (imageData result) st))
              else if isQuotaError result
              then setRetryCountdown 86400 (setBgQuotaError true st)
              else st
          | Throw _ => st
          end in
        (setLoadingBg false st, generated)
  end.

(** [query.trim().split(' ').length > 2 || query.length > 20] *)
Definition needsParsing (query : string) : bool :=
  ((2 <? length (split_space (trim query))) || (20 <? String.length query))%nat.

Definition handleSearch (manualQuery : js string) (st : AppState) : AppState * list Event :=
  let query := orElseStr manualQuery (searchQuery st) in
  if negb (truthyStr (Some (trim query))) then (st, [])
  else if needsParsing query then
    let st := setLoading true st in
    match parseSearchQuery W query with
    | (Ok parsed, asked) =>
        let targetCity := p_city parsed in
        let intent := orElseStr (p_intent parsed) "" in
        let st := setUserIntent intent st in
        let '(st, fetched) := fetchData targetCity (Some intent) st in
        (st, asked ++ fetched)
    | (Throw _, asked) =>
        let '(st, fetched) := fetchData query (Some "") st in
        (st, asked ++ fetched)
    end
  else
    let st := setUserIntent "" st in
    fetchData query (Some "") st.

(** The mount effect: [fetchData('New Delhi')]. *)
Definition onMount (st : AppState) : AppState * list Event :=
  fetchData "New Delhi" None st.

(** The unit toggle and the effect that follows it. *)
Definition toggleUnit (st : AppState) : AppState * list Event :=
  let st := setUnit (match st_unit st with CELSIUS => FAHRENHEIT | FAHRENHEIT => CELSIUS end) st in
  match currentWeather st with
  | Some _ => fetchData (city st) None st
  | None => (st, [])
  end.

End App.

(* ================================================================= *)
(** * components/Icons.tsx *)

Inductive Glyph :=
| Sun | Moon | Cloud | CloudDrizzle | CloudRain | CloudLightning | CloudSnow | CloudFog.

(** A rendered glyph: the component and its [className]. *)
Record Icon := { glyph : Glyph; className : string }.

(** [WeatherIcon]: the [switch] of [getIcon] on the icon code. *)
Definition WeatherIcon (code className_ : string) : Icon :=
  if String.eqb code "01d" then {| glyph := Sun; className := className_ +:+ " text-yellow-400" |}
  else if String.eqb code "01n"
  then {| glyph := Moon; className := className_ +:+ " text-slate-300" |}
  else if String.eqb code "02d" || String.eqb code "02n"
  then {| glyph := Cloud; className := className_ +:+ " text-gray-400" |}
  else if String.eqb code "03d" || String.eqb code "03n"
  then {| glyph := Cloud; className := className_ +:+ " text-gray-500" |}
  else if String.eqb code "04d" || String.eqb code "04n"
  then {| glyph := Cloud; className := className_ +:+ " text-gray-600" |}
  else if String.eqb code "09d" || String.eqb code "09n"
  then {| glyph := CloudDrizzle; className := className_ +:+ " text-blue-400" |}
  else if String.eqb code "10d" || String.eqb code "10n"
  then {| glyph := CloudRain; className := className_ +:+ " text-blue-500" |}
  else if String.eqb code "11d" || String.eqb code "11n"
  then {| glyph := CloudLightning; className := className_ +:+ " text-yellow-600" |}
  else if String.eqb code "13d" || String.eqb code "13n"
  then {| glyph := CloudSnow; className := className_ +:+ " text-white" |}
  else if String.eqb code "50d" || String.eqb code "50n"
  then {| glyph := CloudFog; className := className_ +:+ " text-gray-300" |}
  else {| glyph := Sun; className := className_ +:+ " text-yellow-400" |}.

(* ================================================================= *)
(** * App.tsx: the helpers of the view *)

(** [list.slice(0, 5)] *)
Definition getDailyForecast (items : list ForecastItem) : list ForecastItem :=
  take 5 items.

Definition getBackgroundClass (weatherCode : js string) : string :=
  if negb (truthyStr weatherCode) then "from-slate-900 to-slate-800"
  else
    let weatherCode := default "" weatherCode in
    if startsWith weatherCode "01" then "from-blue-400 to-blue-600"
    else if startsWith weatherCode "02" || startsWith weatherCode "03"
    then "from-blue-300 to-blue-500"
    else if startsWith weatherCode "09" || startsWith weatherCode "10"
    then "from-slate-600 to-slate-800"
    else if startsWith weatherCode "11" then "from-indigo-800 to-purple-900"
    else if startsWith weatherCode "13" then "from-blue-100 to-slate-300"
    else "from-slate-800 to-slate-900".

(** [currentWeather?.weather[0]?.icon] *)
Definition displayedIcon (st : AppState) : js string :=
  condition ← (currentWeather st ≫= λ weather_, weather weather_ !! 0%nat);
  Some (icon condition).

(** [x <= bound] for a reading that may be [undefined]. *)
Definition js_leb (x : js float) (bound : float) : bool :=
  match x with
  | Some v => PrimFloat.leb v bound
  | None => false
  end.

Definition getAQIColor (aqi_ : js float) : string :=
  if js_leb aqi_ 50 then "text-green-400"
  else if js_leb aqi_ 100 then "text-yellow-400"
  else if js_leb aqi_ 150 then "text-orange-400"
  else "text-red-500".

Definition getAQIDescription (aqi_ : js float) : string :=
  if js_leb aqi_ 50 then "Good"
  else if js_leb aqi_ 100 then "Moderate"
  else if js_leb aqi_ 150 then "Unhealthy for Sensitive"
  else "Unhealthy".

(** An integer's [toString()]. *)
Definition Z_toString (n : Z) : string := NilZero.string_of_int (Z.to_int n).

Fixpoint repeatChar (n : nat) (c : ascii) : string :=
  match n with
  | O => EmptyString
  | S k => String c (repeatChar k c)
  end.

(** [s.padStart(targetLength, c)] *)
Definition padStart (targetLength : nat) (c : ascii) (s : string) : string :=
  repeatChar (targetLength - String.length s) c +:+ s.

(** [formatCountdown], on a whole number of seconds: [Math.floor] of a
    quotient is [Z.div], [%] is [Z.rem]. *)
Definition formatCountdown (seconds : Z) : string :=
  let h := seconds / 3600 in
  let m := Z.rem seconds 3600 / 60 in
  let s := Z.rem seconds 60 in
  padStart 2 "0" (Z_toString h) +:+ ":" +:+ padStart 2 "0" (Z_toString m)
  +:+ ":" +:+ padStart 2 "0" (Z_toString s).

(** The retry button is rendered when the page shows weather, the quota
    flag is set and the countdown is not positive (the countdown text is
    rendered in its place otherwise). *)
Definition retryButtonVisible (st : AppState) : bool :=
  negb (loading st) && bool_decide (is_Some (currentWeather st))
  && bgQuotaError st && negb (0 <? retryCountdown st).

(* ================================================================= *)
(** * Observations on traces *)

(** The arguments of the [onChunk] invocations of a trace, in order. *)
Definition chunksOf (trace : list Event) : list string :=
  omap (λ ev, match ev with OnChunk chunk => Some chunk | _ => None end) trace.

(** The chunks of a stream that reach [onChunk]: those with a truthy
    text. *)
Definition deliveredChunks (received : list (js string)) : list string :=
  omap (λ text_, if truthyStr text_ then text_ else None) received.

(** The streaming calls of a trace. *)
Definition streamCalls (trace : list Event) : list GenRequest :=
  omap (λ ev, match ev with GenerateContentStream req => Some req | _ => None end) trace.

(** The [generateContent] calls of a trace. *)
Definition contentCalls (trace : list Event) : list GenRequest :=
  omap (λ ev, match ev with GenerateContent req => Some req | _ => None end) trace.

(** The requests [parseSearchQuery] makes are the ones sent to the text
    model with a JSON answer asked for. *)
Definition isParseCall (req : GenRequest) : bool :=
  String.eqb (model req) "gemini-2.5-flash" && truthyStr (responseMimeType req).

(** The HTTP requests of a trace. *)
Definition httpRequests (trace : list Event) : list (string * Params) :=
  omap (λ ev, match ev with HttpGet url params => Some (url, params) | _ => None end) trace.

(** The pieces of a string between the occurrences of a character. *)
Fixpoint splitChar (c : ascii) (s : string) : list string :=
  match s with
  | EmptyString => [EmptyString]
  | String x rest =>
      if Ascii.eqb x c then EmptyString :: splitChar c rest
      else match splitChar c rest with
           | piece :: pieces => String x piece :: pieces
           | [] => [String x EmptyString]
           end
  end.

(** Reading a countdown text back: hours, minutes and seconds in
    decimal, separated by colons. *)
Definition parseCountdown (shown : string) : option Z :=
  match splitChar ":" shown with
  | [h; m; s] =>
      h ← Z.of_int <$> NilZero.int_of_string h;
      m ← Z.of_int <$> NilZero.int_of_string m;
      s ← Z.of_int <$> NilZero.int_of_string s;
      Some (h * 3600 + m * 60 + s)
  | _ => None
  end.

(** What a handler that runs on its own leaves behind, and what the
    page starts with: the countdown lies between 0 and 86400 and runs
    only under the quota flag; the quota flag and a generated image
    exclude each other and both need weather on display; weather and
    forecast are present together; an error is never shown beside
    weather; no loading flag is left set. (Handlers that overlap can
    break it: the callbacks of an earlier search may land after a later
    search has cleared the page.) *)
Definition pageInvariant (st : AppState) : Prop :=
  0 ≤ retryCountdown st ≤ 86400
  ∧ (0 < retryCountdown st → bgQuotaError st = true)
  ∧ (bgQuotaError st = true → bgImage st = None ∧ is_Some (currentWeather st))
  ∧ (is_Some (bgImage st) → is_Some (currentWeather st))
  ∧ (is_Some (currentWeather st) ↔ is_Some (forecast st))
  ∧ (is_Some (error st) → currentWeather st = None)
  ∧ loading st = false ∧ loadingInsight st = false ∧ loadingBg st = false.



(** The string holds no occurrence of the character. *)
Fixpoint lacksChar (c : ascii) (s : string) : bool :=
  match s with
  | EmptyString => true
  | String x rest => negb (Ascii.eqb x c) && lacksChar c rest
  end.

(** The number of single spaces of a string. *)
Fixpoint countSpaces (s : string) : nat :=
  match s with
  | EmptyString => 0
  | String c rest => (if Ascii.eqb c " " then 1 else 0) + countSpaces rest
  end.

(* ================================================================= *)
(** * A concrete world

    One city, five forecast days and five forecast hours; the answers of
    the Gemini SDK are left open. *)

Definition paris : Location :=
  {| latitude := Some 48.75%float;
     longitude := Some 2.25%float;
     name := Some "Paris";
     country := Some "FR";
     id := Some 2988507 |}.

Definition parisCurrent : CurrentData :=
  {| time := Some "2024-05-01T14:00";
     temperature_2m := Some 22.5%float;
     relative_humidity_2m := Some 64%float;
     apparent_temperature := Some 23.25%float;
     is_day := Some 1;
     precipitation := Some 0.5%float;
     weather_code := Some 61;
     cloud_cover := Some 75%float;
     wind_speed_10m := Some 3.5%float;
     wind_direction_10m := Some 220%float;
     surface_pressure := Some 1009.5%float;
     dew_point_2m := Some 15.25%float;
     us_aqi := None; pm10 := None; pm2_5 := None; carbon_monoxide := None;
     nitrogen_dioxide := None; sulphur_dioxide := None; ozone := None |}.

Definition parisAir : CurrentData :=
  {| time := Some "2024-05-01T14:00";
     temperature_2m := None; relative_humidity_2m := None;
     apparent_temperature := None; is_day := None; precipitation := None;
     weather_code := None; cloud_cover := None; wind_speed_10m := None;
     wind_direction_10m := None; surface_pressure := None; dew_point_2m := None;
     us_aqi := Some 42%float;
     pm10 := Some 12.5%float;
     pm2_5 := Some 8.25%float;
     carbon_monoxide := Some 180%float;
     nitrogen_dioxide := Some 14.5%float;
     sulphur_dioxide := Some 1.25%float;
     ozone := Some 70%float |}.

Definition parisDaily : DailyData :=
  {| daily_time := ["2024-05-01"; "2024-05-02"; "2024-05-03"; "2024-05-04"; "2024-05-05"];
     daily_weather_code := [61; 3; 0; 95; 71];
     temperature_2m_max := [25.5; 21; 19.5; 18; 12]%float;
     temperature_2m_min := [14.5; 11; 10.5; 9; 4]%float;
     sunrise := ["2024-05-01T06:30"; "2024-05-02T06:28"; "2024-05-03T06:27";
                 "2024-05-04T06:25"; "2024-05-05T06:24"];
     sunset := ["2024-05-01T21:05"; "2024-05-02T21:06"; "2024-05-03T21:08";
                "2024-05-04T21:09"; "2024-05-05T21:11"];
     uv_index_max := [5.5; 6; 4.5; 3; 2]%float;
     precipitation_probability_max := Some [80; 20; 0; 90; 60]%float |}.

Definition parisHourly : HourlyData :=
  {| hourly_time := ["2024-05-01T12:00"; "2024-05-01T13:00"; "2024-05-01T14:00";
                     "2024-05-01T15:00"; "2024-05-01T16:00"];
     hourly_temperature_2m := [21; 22; 22.5; 22; 21.5]%float;
     hourly_weather_code := [3; 61; 61; 63; 2];
     hourly_is_day := [1; 1; 1; 1; 1];
     precipitation_probability := Some [10; 70; 80; 85; 30]%float |}.

Definition emptyData : ResponseData :=
  {| data_results := None; data_current := None; data_daily := None;
     data_hourly := None; utc_offset_seconds := None |}.

(** The three endpoints: Paris is the only city the geocoder knows. *)
Definition parisAxios (url : string) (params : Params) : Result ResponseData :=
  if String.eqb url GEO_URL then
    match param "name" params with
    | Some (PStr "Paris") =>
        Ok {| data_results := Some [paris]; data_current := None; data_daily := None;
              data_hourly := None; utc_offset_seconds := None |}
    | _ => Ok emptyData
    end
  else if String.eqb url WEATHER_URL then
    Ok {| data_results := None; data_current := Some parisCurrent;
          data_daily := Some parisDaily; data_hourly := Some parisHourly;
          utc_offset_seconds := Some 7200 |}
  else if String.eqb url AQI_URL then
    Ok {| data_results := None; data_current := Some parisAir; data_daily := None;
          data_hourly := None; utc_offset_seconds := Some 7200 |}
  else Throw (newError "Network Error").

Definition parisWorld (key : js string) (generated : Result GenResponse)
    (streamed : Result Stream) : World :=
  {| axios := parisAxios;
     API_KEY := key;
     models_generateContent := fun _ => generated;
     models_generateContentStream := fun _ => streamed;
     JSON_parse := fun _ => Throw (newError "Unexpected token");
     now_toISOString := "2024-05-01T14:25:10.000Z";
     Date_getTime := fun _ => 1714572000000%float;
     Math_floor := fun x => x;
     Number_toString := fun _ => "22.5";
     TypeError := fun prop => newError ("Cannot read properties of undefined (reading '" +:+ prop +:+ "')");
     race_weather_aqi := FirstSettles;
     race_current_forecast := FirstSettles |}.

(** What the SDK rejects with when the quota is used up. *)
Definition quotaError : JsError :=
  {| message := Some "got status: 429 Too Many Requests";
     status := VStr "RESOURCE_EXHAUSTED";
     code := VNum 429 |}.

(** What the SDK rejects with on an HTTP 429 answer: an [ApiError]
    whose [status] is the numeric HTTP status and whose message is the
    JSON text of the error body; it has no [code]. *)
Definition apiError429 : JsError :=
  {| message :=
       Some ("{" +:+ dquote +:+ "error" +:+ dquote +:+ ":{" +:+ dquote +:+ "code"
             +:+ dquote +:+ ":429," +:+ dquote +:+ "message" +:+ dquote +:+ ":"
             +:+ dquote +:+ "Resource has been exhausted (e.g. check quota)."
             +:+ dquote +:+ "," +:+ dquote +:+ "status" +:+ dquote +:+ ":"
             +:+ dquote +:+ "RESOURCE_EXHAUSTED" +:+ dquote +:+ "}}");
     status := VNum 429;
     code := VUndefined |}.

(** The same world with no API key configured. *)
Definition keylessParis : World :=
  parisWorld None (Throw (newError "unreachable")) (Throw (newError "unreachable")).

(** Paris with an API key whose quota is used up, and with an API key
    whose calls fail for another reason. *)
Definition quotaParis : World :=
  parisWorld (Some "key") (Throw quotaError) (Throw quotaError).


(** Paris with an API key whose calls are answered with HTTP 429. *)
Definition throttledParis : World :=
  parisWorld (Some "key") (Throw apiError429) (Throw apiError429).

(** The snapshot [getCurrentWeather] builds for Paris. *)
Definition parisSnapshot : CurrentWeather :=
  {| coord_lon := Some 2.25%float;
     coord_lat := Some 48.75%float;
     weather :=
       [ {| wc_id := Some 61; wc_main := "Slight rain";
            description := "Slight rain"; icon := "10d" |} ];
     base := "stations";
     main :=
       {| temp := Some 22.5%float;
          feels_like := Some 23.25%float;
          temp_min := Some 22.5%float;
          temp_max := Some 22.5%float;
          pressure := Some 1009.5%float;
          humidity := Some 64%float |};
     visibility := 10000%float;
     wind := {| speed := Some 3.5%float; deg := Some 220%float |};
     clouds_all := Some 75%float;
     dt := Some "2024-05-01T14:00";
     sys :=
       {| sys_type := 1; sys_id := 0; sys_country := "FR";
          sys_sunrise := 1714572000%float; sys_sunset := 1714572000%float |};
     uv_index := Some 5.5%float;
     cw_precipitation := Some 0.5%float;
     dew_point := Some 15.25%float;
     aqi :=
       Some {| aq_us_aqi := Some 42%float;
               aq_pm2_5 := Some 8.25%float;
               aq_pm10 := Some 12.5%float;
               co := Some 180%float;
               no2 := Some 14.5%float;
               so2 := Some 1.25%float;
               o3 := Some 70%float |};
     timezone := Some 7200;
     cw_id := Some 2988507;
     cw_name := Some "Paris";
     cod := 200 |}.

(** The condition of the Paris snapshot. *)
Definition rainByDay : WeatherCondition :=
  {| wc_id := Some 61; wc_main := "Slight rain";
     description := "Slight rain"; icon := "10d" |}.

(** Paris with an API key in good standing: the parse call answers with
    a JSON text, the image call with a text part followed by two image
    parts, the stream with four chunks of which two carry text. *)
Definition sceneAnswer : GenResponse :=
  {| text := None;
     parts := Some [ {| inlineData := None |};
                     {| inlineData := Some {| data := Some "iVBORw0KGgo" |} |};
                     {| inlineData := Some {| data := Some "R0lGODlh" |} |} ] |}.

Definition parseAnswer : GenResponse :=
  {| text := Some ("{" +:+ dquote +:+ "city" +:+ dquote +:+ ": " +:+ dquote +:+ "Paris"
                   +:+ dquote +:+ ", " +:+ dquote +:+ "intent" +:+ dquote +:+ ": "
                   +:+ dquote +:+ "raining" +:+ dquote +:+ "}");
     parts := None |}.

Definition insightAnswer : Stream :=
  {| chunks := [Some "Grab "; None; Some ""; Some "an umbrella."];
     failure := None |}.

Definition chattyParis : World :=
  {| axios := parisAxios;
     API_KEY := Some "key";
     models_generateContent :=
       fun req => if isParseCall req then Ok parseAnswer else Ok sceneAnswer;
     models_generateContentStream := fun _ => Ok insightAnswer;
     JSON_parse := fun _ => Ok {| p_city := "Paris"; p_intent := Some "raining" |};
     now_toISOString := "2024-05-01T14:25:10.000Z";
     Date_getTime := fun _ => 1714572000000%float;
     Math_floor := fun x => x;
     Number_toString := fun _ => "22.5";
     TypeError := fun prop => newError ("Cannot read properties of undefined (reading '" +:+ prop +:+ "')");
     race_weather_aqi := FirstSettles;
     race_current_forecast := FirstSettles |}.


(** Paris with the air-quality service out of order. *)
Definition airlessParis : World :=
  {| axios := fun url params =>
       if String.eqb url AQI_URL then Throw (newError "Service Unavailable")
       else parisAxios url params;
     API_KEY := None;
     models_generateContent := fun _ => Throw (newError "unreachable");
     models_generateContentStream := fun _ => Throw (newError "unreachable");
     JSON_parse := fun _ => Throw (newError "Unexpected token");
     now_toISOString := "2024-05-01T14:25:10.000Z";
     Date_getTime := fun _ => 1714572000000%float;
     Math_floor := fun x => x;
     Number_toString := fun _ => "22.5";
     TypeError := fun prop => newError ("Cannot read properties of undefined (reading '" +:+ prop +:+ "')");
     race_weather_aqi := FirstSettles;
     race_current_forecast := FirstSettles |}.



(** The state once Paris has been looked up with no API key. *)
Definition showingParis : AppState :=
  (fetchData keylessParis "Paris" None initialState).1.

(* ================================================================= *)
(** * Properties *)

(** ** The model on small inputs *)

Example getIconCode_rain_day : getIconCode 61 1 = "10d".
Proof. reflexivity. Qed.

Example getIconCode_clear_night : getIconCode 0 0 = "01n".
Proof. reflexivity. Qed.

Example getIconCode_showers : getIconCode 81 1 = "09d" ∧ getIconCode 86 0 = "13n".
Proof. by split. Qed.

Example getDescription_fog : getDescription 48 = "Depositing rime fog".
Proof. reflexivity. Qed.

Example getDescription_unlisted : getDescription 4 = "Unknown" ∧ getDescription (-1) = "Unknown".
Proof. by split. Qed.

Example trim_both_ends : trim "  New  York " = "New  York".
Proof. reflexivity. Qed.

Example split_space_pieces :
  split_space "a b" = ["a"; "b"] ∧ split_space "a  b" = ["a"; ""; "b"]
  ∧ split_space "" = [""].
Proof. by repeat split. Qed.

Example needsParsing_examples :
  needsParsing "Paris" = false
  ∧ needsParsing "New York" = false
  ∧ needsParsing "Is it raining in Paris" = true
  ∧ needsParsing "Llanfairpwllgwyngyllgogerychwyrndrobwll" = true.
Proof. by repeat split. Qed.

Example findIndex_examples :
  findIndex (Z.eqb 3) [1; 2; 3; 3] = 2 ∧ findIndex (Z.eqb 7) [1; 2; 3] = -1.
Proof. by split. Qed.

Example includes_night_marker : includes "10n" "n" = true ∧ includes "10d" "n" = false.
Proof. by split. Qed.

Example currentHourStr_paris : currentHourStr keylessParis = "2024-05-01T14".
Proof. reflexivity. Qed.

Example hourly_window_paris :
  hi_temp <$> hourlyListOf keylessParis parisHourly
  = [Some 22.5%float; Some 22%float; Some 21.5%float].
Proof. reflexivity. Qed.

Example daily_midpoints_paris :
  (λ item, fm_temp (fi_main item)) <$> dailyList keylessParis parisDaily
  = [20; 16; 15; 13.5; 8]%float.
Proof. reflexivity. Qed.

Example sceneQuotaSignal_message_only :
  sceneQuotaSignal (newError "got status: 429") = true
  ∧ insightQuotaSignal (newError "got status: 429") = false.
Proof. by split. Qed.

(** ** The effect monad *)

Lemma bind_Ok_inv {A B} (m : Eff A) (k : A → Eff B) (b : B) :
  (m ≫= k).1 = Ok b → ∃ a, m.1 = Ok a ∧ (k a).1 = Ok b.
Proof.
  destruct m as [[a | e] evs]; cbn; [| discriminate].
  destruct (k a) as [r more] eqn:Hk. cbn. intros ->.
  exists a. by rewrite Hk.
Qed.

Lemma bind_trace {A B} (m : Eff A) (k : A → Eff B) :
  (m ≫= k).2 = match m.1 with
                | Ok a => m.2 ++ (k a).2
                | Throw _ => m.2
                end.
Proof.
  destruct m as [[a | e] evs]; cbn; [| done]. by destruct (k a).
Qed.

Lemma try_catch_rethrow_Ok_inv {A} (body : Eff A) (wrap : JsError → JsError) (v : A) :
  (try_catch body (λ error, throw (wrap error))).1 = Ok v → body.1 = Ok v.
Proof. by destruct body as [[a | e] evs]. Qed.

Lemma try_catch_rethrow_trace {A} (body : Eff A) (wrap : JsError → JsError) :
  (try_catch body (λ error, throw (wrap error))).2 = body.2.
Proof. destruct body as [[a | e] evs]; cbn; [done | apply app_nil_r]. Qed.


Lemma Promise_all_Ok_inv {A B} race (a : Eff A) (b : Eff B) x y :
  (Promise_all race a b).1 = Ok (x, y) → a.1 = Ok x ∧ b.1 = Ok y.
Proof.
  destruct a as [[x' | e1] ea], b as [[y' | e2] eb]; cbn;
    try discriminate; [by intros [= -> ->] | by destruct race].
Qed.

Lemma Promise_all_trace {A B} race (a : Eff A) (b : Eff B) :
  (Promise_all race a b).2 = a.2 ++ b.2.
Proof. by destruct a, b. Qed.

Lemma reading_Ok_inv {A} W prop (x : js A) (a : A) :
  (reading W prop x).1 = Ok a → x = Some a.
Proof. destruct x; cbn; [by intros [= ->] | discriminate]. Qed.

Lemma reading_trace {A} W prop (x : js A) : (reading W prop x).2 = [].
Proof. by destruct x. Qed.


Lemma try_catch_rethrow_Throw {A} (body : Eff A) (wrap : JsError → JsError) inner :
  body.1 = Throw inner →
  (try_catch body (λ error, throw (wrap error))).1 = Throw (wrap inner).
Proof. destruct body as [[a | e] evs]; cbn; [discriminate | by intros [= ->]]. Qed.


(** ** Icon codes *)

Ltac in_list := simpl; repeat first [ left; reflexivity | right ].

Lemma suffixOf_cases isDay :
  (isDay = 0 ∧ suffixOf isDay = "n") ∨ (isDay ≠ 0 ∧ suffixOf isDay = "d").
Proof.
  unfold suffixOf. destruct (Z.eqb_spec isDay 0); [left | right]; done.
Qed.

Lemma getIconCode_in_cases wmoCode isDay : In (getIconCode wmoCode isDay) iconCases.
Proof.
  unfold getIconCode.
  destruct (suffixOf_cases isDay) as [[_ ->] | [_ ->]];
    repeat match goal with
           | |- context [if ?b then _ else _] => destruct b
           end; in_list.
Qed.

Lemma getIconCode_outside_buckets wmoCode isDay :
  inBuckets wmoCode = false →
  getIconCode wmoCode isDay = "01" +:+ suffixOf isDay.
Proof.
  unfold inBuckets, getIconCode. intros Hout.
  repeat (apply orb_false_iff in Hout as [Hout ?]).
  repeat match goal with
         | H : _ = false |- _ => rewrite H; clear H
         end.
  reflexivity.
Qed.

(** C1, as amended. Every icon code [getIconCode] produces is one of the
    eighteen codes the UI has a glyph for (nine two-digit ids, each with
    a day or a night suffix), and a code outside the buckets the function
    recognises falls back to the clear-sky id 01 with the suffix of the
    is-day flag: 01d when the flag is non-zero, 01n when it is zero. *)
Theorem C1_icon_enumeration_and_fallback :
  ∀ wmoCode isDay : Z,
    In (getIconCode wmoCode isDay) iconCases
    ∧ (inBuckets wmoCode = false →
       getIconCode wmoCode isDay = if isDay =? 0 then "01n" else "01d").
Proof.
  intros wmoCode isDay. split.
  - apply getIconCode_in_cases.
  - intros Hout. rewrite (getIconCode_outside_buckets _ isDay Hout).
    unfold suffixOf. by destruct (isDay =? 0).
Qed.

(** C1 at code 4 by night. *)
Lemma C1_icon_enumeration_and_fallback_witness :
  In (getIconCode 4 0) iconCases ∧ getIconCode 4 0 = "01n".
Proof.
  destruct (C1_icon_enumeration_and_fallback 4 0) as [Hin Hfall].
  split; [exact Hin | exact (Hfall eq_refl)].
Defined.

(** C1 as stated fails: code 4 lies outside every bucket, and at night
    (is-day flag 0) its icon is 01n, not the clear-day icon 01d. *)
Lemma C1_fallback_is_not_always_clear_day :
  inBuckets 4 = false ∧ getIconCode 4 0 = "01n" ∧ getIconCode 4 0 ≠ "01d".
Proof. repeat split. vm_compute. discriminate. Qed.

(** ** Descriptions *)

Lemma codeEntries_nonempty k s : (k, s) ∈ codeEntries → s ≠ "".
Proof.
  unfold codeEntries. intros Hin.
  repeat (apply elem_of_cons in Hin as [Hin | Hin]; [by inversion Hin |]).
  by apply elem_of_nil in Hin.
Qed.

Lemma getDescription_hit wmoCode s :
  codes !! wmoCode = Some s → getDescription wmoCode = s.
Proof.
  intros Hhit. unfold getDescription. rewrite Hhit.
  assert (s ≠ "") as Hne.
  { apply (codeEntries_nonempty wmoCode). by apply elem_of_list_to_map_2. }
  by destruct s.
Qed.

Lemma getDescription_miss wmoCode :
  codes !! wmoCode = None → getDescription wmoCode = "Unknown".
Proof. intros Hmiss. unfold getDescription. by rewrite Hmiss. Qed.

Lemma codes_size : size codes = 28%nat.
Proof. vm_compute. reflexivity. Qed.

(** ** The current-weather fetch *)

(** What [getCurrentWeather] does when the three requests succeed and
    the payloads have their sections. *)
Lemma getCurrentWeather_success W city key unit geo location others wdata adata
    current daily air :
  axios W GEO_URL
    [ ("name", PStr city); ("count", PInt 1);
      ("language", PStr "en"); ("format", PStr "json") ] = Ok geo →
  data_results geo = Some (location :: others) →
  axios W WEATHER_URL
    (currentWeatherParams (latitude location) (longitude location) unit) = Ok wdata →
  axios W AQI_URL (airQualityParams (latitude location) (longitude location)) = Ok adata →
  data_current wdata = Some current →
  data_daily wdata = Some daily →
  data_current adata = Some air →
  ∃ snapshot,
    (getCurrentWeather W city key unit).1 = Ok snapshot
    ∧ weather snapshot =
        [ {| wc_id := weather_code current;
             wc_main := getDescription_js (weather_code current);
             description := getDescription_js (weather_code current);
             icon := getIconCode_js (weather_code current) (is_day current) |} ]
    ∧ main snapshot =
        {| temp := temperature_2m current;
           feels_like := apparent_temperature current;
           temp_min := temperature_2m current;
           temp_max := temperature_2m current;
           pressure := surface_pressure current;
           humidity := relative_humidity_2m current |}
    ∧ visibility snapshot = 10000%float
    ∧ wind snapshot =
        {| speed := wind_speed_10m current; deg := wind_direction_10m current |}.
Proof.
  intros Hgeo Hres Hweather Hair Hcur Hday Haq.
  unfold getCurrentWeather, getCurrentWeather_try, getCoordinates, axios_get,
    perform, try_catch, Promise_all, reading.
  unfold mbind, Eff_bind, mret, Eff_ret.
  rewrite Hgeo, Hres. cbn. rewrite Hweather, Hair. cbn. rewrite Hcur, Hday. cbn.
  rewrite Haq. cbn. eexists. repeat split.
Qed.

Lemma getCoordinates_trace W city :
  (getCoordinates W city).2 =
    [ HttpGet GEO_URL [ ("name", PStr city); ("count", PInt 1);
                        ("language", PStr "en"); ("format", PStr "json") ] ].
Proof.
  unfold getCoordinates, axios_get, perform. rewrite bind_trace. cbn.
  destruct (axios W GEO_URL _) as [response | e]; [| done].
  by destruct (data_results response) as [[| first others] |].
Qed.

(** Every snapshot [getCurrentWeather] returns was built from the
    [current] section of the answer to its own weather request. *)
Lemma getCurrentWeather_Ok_inv W city key unit snapshot :
  (getCurrentWeather W city key unit).1 = Ok snapshot →
  ∃ location wdata current,
    axios W WEATHER_URL
      (currentWeatherParams (latitude location) (longitude location) unit) = Ok wdata
    ∧ data_current wdata = Some current
    ∧ weather snapshot =
        [ {| wc_id := weather_code current;
             wc_main := getDescription_js (weather_code current);
             description := getDescription_js (weather_code current);
             icon := getIconCode_js (weather_code current) (is_day current) |} ]
    ∧ main snapshot =
        {| temp := temperature_2m current;
           feels_like := apparent_temperature current;
           temp_min := temperature_2m current;
           temp_max := temperature_2m current;
           pressure := surface_pressure current;
           humidity := relative_humidity_2m current |}
    ∧ visibility snapshot = 10000%float
    ∧ wind snapshot =
        {| speed := wind_speed_10m current; deg := wind_direction_10m current |}.
Proof.
  unfold getCurrentWeather. intros Hok.
  apply try_catch_rethrow_Ok_inv in Hok. unfold getCurrentWeather_try in Hok.
  apply bind_Ok_inv in Hok as (location & _ & Hok).
  apply bind_Ok_inv in Hok as ([weatherResponse aqiResponse] & Hall & Hok).
  apply Promise_all_Ok_inv in Hall as [Hweather _].
  apply bind_Ok_inv in Hok as (current & Hcur%reading_Ok_inv & Hok).
  apply bind_Ok_inv in Hok as (daily & _ & Hok).
  apply bind_Ok_inv in Hok as (air & _ & Hok).
  injection Hok as <-.
  exists location, weatherResponse, current. by repeat split.
Qed.

(** The requests [getCurrentWeather] issues: the geocoding request, then,
    when a match came back, the weather and the air-quality request. *)
Lemma getCurrentWeather_trace W city key unit :
  let geoRequest :=
    HttpGet GEO_URL [ ("name", PStr city); ("count", PInt 1);
                      ("language", PStr "en"); ("format", PStr "json") ] in
  (getCurrentWeather W city key unit).2 = [geoRequest]
  ∨ ∃ location,
      (getCurrentWeather W city key unit).2 =
        [ geoRequest;
          HttpGet WEATHER_URL
            (currentWeatherParams (latitude location) (longitude location) unit);
          HttpGet AQI_URL (airQualityParams (latitude location) (longitude location)) ].
Proof.
  cbn zeta. unfold getCurrentWeather.
  rewrite try_catch_rethrow_trace. unfold getCurrentWeather_try.
  rewrite bind_trace, getCoordinates_trace.
  destruct ((getCoordinates W city).1) as [location | e]; [right | by left].
  exists location. rewrite bind_trace, Promise_all_trace. cbn [axios_get perform snd].
  destruct (Promise_all _ _ _).1 as [[weatherResponse aqiResponse] |]; [| done].
  rewrite bind_trace, reading_trace.
  destruct (reading _ _ _).1; [| done].
  rewrite bind_trace, reading_trace.
  destruct (reading _ _ _).1; [| done].
  rewrite bind_trace, reading_trace.
  by destruct (reading _ _ _).1.
Qed.

(** C3 as stated fails: the lookup table of [getDescription] has 28
    entries, not 30. *)
Lemma C3_table_has_not_30_entries : size codes ≠ 30%nat.
Proof. rewrite codes_size. discriminate. Qed.

(** C3, as amended. The description mapping is a direct lookup in a
    table of 28 entries: a code in the table maps to its entry and any
    other code to the literal Unknown, so the outcome is always a string
    (the function has no failing outcome); and a snapshot that
    [getCurrentWeather] builds from a payload whose condition code is 61
    and whose is-day flag is 1 has the icon 10d and the description
    Slight rain. *)
Theorem C3_description_lookup_and_code_61 :
  size codes = 28%nat
  ∧ (∀ wmoCode s, codes !! wmoCode = Some s → getDescription wmoCode = s)
  ∧ (∀ wmoCode, codes !! wmoCode = None → getDescription wmoCode = "Unknown")
  ∧ getDescription_js None = "Unknown"
  ∧ (∀ W city key unit geo location others wdata adata current daily air,
       axios W GEO_URL
         [ ("name", PStr city); ("count", PInt 1);
           ("language", PStr "en"); ("format", PStr "json") ] = Ok geo →
       data_results geo = Some (location :: others) →
       axios W WEATHER_URL
         (currentWeatherParams (latitude location) (longitude location) unit) = Ok wdata →
       axios W AQI_URL
         (airQualityParams (latitude location) (longitude location)) = Ok adata →
       data_current wdata = Some current →
       data_daily wdata = Some daily →
       data_current adata = Some air →
       weather_code current = Some 61 →
       is_day current = Some 1 →
       ∃ snapshot,
         (getCurrentWeather W city key unit).1 = Ok snapshot
         ∧ weather snapshot =
             [ {| wc_id := Some 61; wc_main := "Slight rain";
                  description := "Slight rain"; icon := "10d" |} ]).
Proof.
  split; [apply codes_size |].
  split; [apply getDescription_hit |].
  split; [apply getDescription_miss |].
  split; [reflexivity |].
  intros W city key unit geo location others wdata adata current daily air
    Hgeo Hres Hweather Hair Hcur Hday Haq Hcode Hisday.
  destruct (getCurrentWeather_success W city key unit _ _ _ _ _ _ _ _
              Hgeo Hres Hweather Hair Hcur Hday Haq)
    as (snapshot & Hok & Hw & _).
  exists snapshot. split; [exact Hok |].
  rewrite Hw, Hcode, Hisday. reflexivity.
Qed.

(** C3 on the Paris payload, whose condition code is 61 by day. *)
Lemma C3_description_lookup_and_code_61_witness :
  ∃ snapshot,
    (getCurrentWeather keylessParis "Paris" "" CELSIUS).1 = Ok snapshot
    ∧ weather snapshot =
        [ {| wc_id := Some 61; wc_main := "Slight rain";
             description := "Slight rain"; icon := "10d" |} ].
Proof.
  destruct C3_description_lookup_and_code_61 as (_ & _ & _ & _ & Hsnapshot).
  eapply (Hsnapshot keylessParis
            "Paris" "" CELSIUS); reflexivity.
Defined.

(** C10. Every snapshot the current-weather fetch returns has its
    minimum and its maximum temperature equal to the current temperature,
    and its visibility is the constant 10000. *)
Theorem C10_snapshot_min_max_visibility :
  ∀ W city key unit snapshot,
    (getCurrentWeather W city key unit).1 = Ok snapshot →
    temp_min (main snapshot) = temp (main snapshot)
    ∧ temp_max (main snapshot) = temp (main snapshot)
    ∧ visibility snapshot = 10000%float.
Proof.
  intros W city key unit snapshot Hok.
  apply getCurrentWeather_Ok_inv in Hok
    as (location & wdata & current & _ & _ & _ & Hmain & Hvis & _).
  rewrite Hmain. cbn. by repeat split.
Qed.

(** C10 on the snapshot fetched for Paris. *)
Lemma C10_snapshot_min_max_visibility_witness :
  ∃ snapshot,
    (getCurrentWeather keylessParis "Paris" "" FAHRENHEIT).1 = Ok snapshot
    ∧ temp (main snapshot) = Some 22.5%float
    ∧ temp_min (main snapshot) = temp (main snapshot)
    ∧ temp_max (main snapshot) = temp (main snapshot)
    ∧ visibility snapshot = 10000%float.
Proof.
  eexists. split; [vm_compute; reflexivity |].
  split; [reflexivity |].
  eapply (C10_snapshot_min_max_visibility
            keylessParis "Paris" "" FAHRENHEIT).
  vm_compute. reflexivity.
Defined.

(** C9. For both unit systems the request [getCurrentWeather] sends to
    the weather endpoint asks for wind speed in metres per second
    ([wind_speed_unit = ms]); the two unit systems differ in the
    [temperature_unit] parameter only; and the wind speed of the returned
    snapshot is the [wind_speed_10m] reading of the answer to that
    request, unconverted. *)
Theorem C9_wind_speed_in_metres_per_second :
  (∀ latitude longitude unit,
     param "wind_speed_unit" (currentWeatherParams latitude longitude unit)
     = Some (PStr "ms"))
  ∧ (∀ latitude longitude,
       filter (λ kv, negb (String.eqb kv.1 "temperature_unit"))
         (currentWeatherParams latitude longitude CELSIUS)
       = filter (λ kv, negb (String.eqb kv.1 "temperature_unit"))
           (currentWeatherParams latitude longitude FAHRENHEIT))
  ∧ (∀ W city key unit url params,
       In (HttpGet url params) (getCurrentWeather W city key unit).2 →
       url = WEATHER_URL →
       param "wind_speed_unit" params = Some (PStr "ms"))
  ∧ (∀ W city key unit snapshot,
       (getCurrentWeather W city key unit).1 = Ok snapshot →
       ∃ location wdata current,
         axios W WEATHER_URL
           (currentWeatherParams (latitude location) (longitude location) unit) = Ok wdata
         ∧ data_current wdata = Some current
         ∧ speed (wind snapshot) = wind_speed_10m current).
Proof.
  split; [by intros ? ? [] |].
  split; [reflexivity |].
  split.
  - intros W city key unit url params Hin ->.
    destruct (getCurrentWeather_trace W city key unit) as [Htrace | [location Htrace]];
      rewrite Htrace in Hin; cbn in Hin.
    + destruct Hin as [Heq | []]. inversion Heq.
    + destruct Hin as [Heq | [Heq | [Heq | []]]]; inversion Heq. by destruct unit.
  - intros W city key unit snapshot Hok.
    apply getCurrentWeather_Ok_inv in Hok
      as (location & wdata & current & Hweather & Hcur & _ & _ & _ & Hwind).
    exists location, wdata, current. by rewrite Hwind.
Qed.

(** C9 on the imperial fetch for Paris. *)
Lemma C9_wind_speed_in_metres_per_second_witness :
  ∃ snapshot location wdata current,
    (getCurrentWeather keylessParis "Paris" "" FAHRENHEIT).1 = Ok snapshot
    ∧ parisAxios WEATHER_URL
        (currentWeatherParams (latitude location) (longitude location) FAHRENHEIT)
      = Ok wdata
    ∧ data_current wdata = Some current
    ∧ speed (wind snapshot) = wind_speed_10m current.
Proof.
  assert (∃ snapshot,
             (getCurrentWeather keylessParis "Paris" "" FAHRENHEIT).1 = Ok snapshot)
    as [snapshot Hok] by (eexists; vm_compute; reflexivity).
  destruct C9_wind_speed_in_metres_per_second as (_ & _ & _ & Hsnapshot).
  destruct (Hsnapshot keylessParis "Paris" "" FAHRENHEIT snapshot Hok)
    as (location & wdata & current & Hweather & Hcur & Hspeed).
  by exists snapshot, location, wdata, current.
Defined.

(** ** The forecast fetch *)

Section Forecast.
Variable W : World.

(** The daily loop pushes the items of the indices from [i] up to
    [min(daily.time.length, 5)], as far as the fuel reaches. *)
Lemma dailyLoop_spec daily fuel i items :
  dailyLoop W daily fuel i items =
    items ++ (dailyItem W daily <$>
                seq i (Nat.min fuel (Nat.min (length (daily_time daily)) 5 - i))).
Proof.
  revert i items. induction fuel as [| fuel IH]; intros i items; cbn [dailyLoop].
  - by rewrite app_nil_r.
  - destruct (Nat.ltb_spec i (Nat.min (length (daily_time daily)) 5)) as [Hlt | Hge].
    + rewrite IH, <- app_assoc. f_equal.
      replace (Nat.min (S fuel) (Nat.min (length (daily_time daily)) 5 - i))
        with (S (Nat.min fuel (Nat.min (length (daily_time daily)) 5 - S i))) by lia.
      reflexivity.
    + replace (Nat.min (length (daily_time daily)) 5 - i)%nat with 0%nat by lia.
      rewrite Nat.min_0_r. cbn. by rewrite app_nil_r.
Qed.

(** Five iterations are enough, and more change nothing: the loop has
    ended by its own condition. *)
Lemma dailyLoop_terminates daily fuel :
  (5 ≤ fuel)%nat →
  dailyLoop W daily fuel 0 [] =
    dailyItem W daily <$> seq 0 (Nat.min (length (daily_time daily)) 5).
Proof.
  intros Hfuel. rewrite dailyLoop_spec. cbn [app]. do 2 f_equal. lia.
Qed.

Lemma dailyList_spec daily :
  dailyList W daily = dailyItem W daily <$> seq 0 (Nat.min (length (daily_time daily)) 5).
Proof. unfold dailyList. by apply dailyLoop_terminates. Qed.

Lemma dailyList_lookup daily i item :
  dailyList W daily !! i = Some item →
  (i < Nat.min (length (daily_time daily)) 5)%nat ∧ item = dailyItem W daily i.
Proof.
  rewrite dailyList_spec, list_lookup_fmap. intros Hlook.
  destruct (seq 0 _ !! i) as [j |] eqn:Hseq; [| discriminate].
  apply lookup_seq in Hseq as [-> Hlt]. cbn in Hlook. by injection Hlook as <-.
Qed.

(** The hourly loop pushes the items of the indices from [i] up to
    [min(startIndex + 24, hourly.time.length)], as far as the fuel
    reaches. *)
Lemma hourlyLoop_spec hourly start fuel i items :
  hourlyLoop W hourly start fuel i items =
    items ++ (hourlyItem W hourly <$>
                seq i (Nat.min fuel
                         (Nat.min (start + 24) (length (hourly_time hourly)) - i))).
Proof.
  revert i items. induction fuel as [| fuel IH]; intros i items; cbn [hourlyLoop].
  - by rewrite app_nil_r.
  - destruct (Nat.ltb_spec i (start + 24)) as [Hlt | Hge];
      destruct (Nat.ltb_spec i (length (hourly_time hourly))) as [Hlt' | Hge'];
      cbn [andb].
    1: { rewrite IH, <- app_assoc. f_equal.
         replace (Nat.min (S fuel)
                    (Nat.min (start + 24) (length (hourly_time hourly)) - i))
           with (S (Nat.min fuel
                      (Nat.min (start + 24) (length (hourly_time hourly)) - S i)))
           by lia.
         reflexivity. }
    all: replace (Nat.min (start + 24) (length (hourly_time hourly)) - i)%nat
           with 0%nat by lia;
         rewrite Nat.min_0_r; cbn; by rewrite app_nil_r.
Qed.

(** Twenty-four iterations are enough, and more change nothing. *)
Lemma hourlyLoop_terminates hourly start fuel :
  (24 ≤ fuel)%nat →
  hourlyLoop W hourly start fuel start [] =
    hourlyItem W hourly <$>
      seq start (Nat.min 24 (length (hourly_time hourly) - start)).
Proof.
  intros Hfuel. rewrite hourlyLoop_spec. cbn [app]. do 2 f_equal. lia.
Qed.

Lemma hourlyListOf_spec hourly :
  hourlyListOf W hourly =
    hourlyItem W hourly <$>
      seq (Z.to_nat (startIndex W hourly))
        (Nat.min 24 (length (hourly_time hourly) - Z.to_nat (startIndex W hourly))).
Proof. unfold hourlyListOf. by apply hourlyLoop_terminates. Qed.

End Forecast.


(** Every forecast [getForecast] returns was built from the [daily] and
    the [hourly] section of one answer of the weather endpoint. *)
Lemma getForecast_Ok_inv W city key unit forecast :
  (getForecast W city key unit).1 = Ok forecast →
  ∃ location response daily hourly,
    axios W WEATHER_URL
      (forecastParams (latitude location) (longitude location) unit) = Ok response
    ∧ data_daily response = Some daily
    ∧ data_hourly response = Some hourly
    ∧ fr_list forecast = dailyList W daily
    ∧ fr_hourly forecast = hourlyListOf W hourly.
Proof.
  unfold getForecast. intros Hok.
  apply try_catch_rethrow_Ok_inv in Hok. unfold getForecast_try in Hok.
  apply bind_Ok_inv in Hok as (location & _ & Hok).
  apply bind_Ok_inv in Hok as (response & Hresponse & Hok).
  apply bind_Ok_inv in Hok as (daily & Hdaily%reading_Ok_inv & Hok).
  apply bind_Ok_inv in Hok as (hourly & Hhourly%reading_Ok_inv & Hok).
  injection Hok as <-.
  by exists location, response, daily, hourly.
Qed.

(** C4. Each daily entry of a forecast [getForecast] returns is built
    from the same index of the upstream daily arrays: its temperature is
    the mean [(max + min) / 2] of that day's reported maximum and
    minimum, its feels-like field is the day's maximum, its pressure is
    1013 and its humidity is 50. *)
Theorem C4_daily_entry_midpoint_and_placeholders :
  ∀ W city key unit forecast,
    (getForecast W city key unit).1 = Ok forecast →
    ∃ location response daily,
      axios W WEATHER_URL
        (forecastParams (latitude location) (longitude location) unit) = Ok response
      ∧ data_daily response = Some daily
      ∧ length (fr_list forecast) = Nat.min (length (daily_time daily)) 5
      ∧ ∀ i item,
          fr_list forecast !! i = Some item →
          (∀ tmax tmin,
             temperature_2m_max daily !! i = Some tmax →
             temperature_2m_min daily !! i = Some tmin →
             fm_temp (fi_main item) = ((tmax + tmin) / 2)%float)
          ∧ fm_feels_like (fi_main item) = temperature_2m_max daily !! i
          ∧ fm_pressure (fi_main item) = 1013%float
          ∧ fm_humidity (fi_main item) = 50%float.
Proof.
  intros W city key unit forecast Hok.
  apply getForecast_Ok_inv in Hok
    as (location & response & daily & hourly & Hresponse & Hdaily & _ & Hlist & _).
  exists location, response, daily.
  split; [exact Hresponse |]. split; [exact Hdaily |]. rewrite Hlist. split.
  - by rewrite dailyList_spec, length_fmap, length_seq.
  - intros i item [_ ->]%dailyList_lookup. cbn.
    split; [| by repeat split].
    by intros tmax tmin -> ->.
Qed.

(** C4 on the first forecast day of Paris: maximum 25.5, minimum 14.5. *)
Lemma C4_daily_entry_midpoint_and_placeholders_witness :
  ∃ forecast item,
    (getForecast keylessParis "Paris" "" CELSIUS).1 = Ok forecast
    ∧ fr_list forecast !! 0%nat = Some item
    ∧ fm_temp (fi_main item) = ((25.5 + 14.5) / 2)%float
    ∧ fm_temp (fi_main item) = 20%float
    ∧ fm_feels_like (fi_main item) = Some 25.5%float
    ∧ fm_pressure (fi_main item) = 1013%float
    ∧ fm_humidity (fi_main item) = 50%float.
Proof.
  assert (∃ forecast, (getForecast keylessParis "Paris" "" CELSIUS).1 = Ok forecast)
    as [forecast Hok] by (eexists; vm_compute; reflexivity).
  destruct (C4_daily_entry_midpoint_and_placeholders keylessParis "Paris" "" CELSIUS
              forecast Hok)
    as (location & response & daily & Hresponse & Hdaily & Hlen & Hitems).
  injection Hresponse as <-. injection Hdaily as <-.
  destruct (fr_list forecast) as [| item items] eqn:Hlist; [discriminate Hlen |].
  destruct (Hitems 0%nat item eq_refl) as (Htemp & Hfeels & Hpressure & Hhumidity).
  exists forecast, item. rewrite Hlist.
  split; [exact Hok |]. split; [reflexivity |].
  split; [exact (Htemp _ _ eq_refl eq_refl) |].
  split; [exact (Htemp _ _ eq_refl eq_refl) |].
  by repeat split.
Defined.




(** ** Failures of the fetch path *)









Lemma joined_fetch_rejects W city unit :
  (∃ e, (getCurrentWeather W city "" unit).1 = Throw e)
  ∨ (∃ e, (getForecast W city "" unit).1 = Throw e) →
  ∃ err,
    (Promise_all (race_current_forecast W)
       (getCurrentWeather W city "" unit) (getForecast W city "" unit)).1 = Throw err.
Proof.
  unfold Promise_all.
  destruct (getCurrentWeather W city "" unit) as [[snapshot | e1] ec];
    destruct (getForecast W city "" unit) as [[forecast | e2] ef];
    cbn; intros [[e He] | [e He]]; try discriminate; eauto.
  all: destruct (race_current_forecast W); eauto.
Qed.

Lemma orElseStr_fallback_nonempty s fallback :
  fallback ≠ "" → orElseStr s fallback ≠ "".
Proof. by destruct s as [[| c r] |]. Qed.


(** ** Failures traced back to the providers *)












(** ** The streaming insight *)

Lemma chunksOf_app a b : chunksOf (a ++ b) = chunksOf a ++ chunksOf b.
Proof. apply omap_app. Qed.

Lemma chunksOf_OnChunk (delivered : list string) : chunksOf (OnChunk <$> delivered) = delivered.
Proof. induction delivered as [| c rest IH]; [done |]. cbn. f_equal. exact IH. Qed.

Lemma streamCalls_app a b : streamCalls (a ++ b) = streamCalls a ++ streamCalls b.
Proof. apply omap_app. Qed.

Lemma streamCalls_OnChunk (delivered : list string) : streamCalls (OnChunk <$> delivered) = [].
Proof. by induction delivered. Qed.

Lemma forAwaitChunks_run received :
  forAwaitChunks received = (Ok tt, OnChunk <$> deliveredChunks received).
Proof.
  induction received as [| text_ rest IH]; [done |].
  cbn [forAwaitChunks]. rewrite IH.
  by destruct text_ as [[| c r] |].
Qed.

Lemma forAwait_run streamResult :
  forAwait streamResult =
    (match failure streamResult with Some e => Throw e | None => Ok tt end,
     OnChunk <$> deliveredChunks (chunks streamResult)).
Proof.
  unfold forAwait. rewrite forAwaitChunks_run.
  destruct (failure streamResult); cbn; by rewrite app_nil_r.
Qed.

(** Everything [streamWeatherInsight] can do, case by case. *)
Lemma streamWeatherInsight_run W weather_ unit userIntent :
  streamWeatherInsight W weather_ unit userIntent =
    let fallback (error : JsError) :=
      if insightQuotaSignal error then apologyChunk else offlineChunk in
    if negb (truthyStr (API_KEY W)) then (Ok tt, [OnChunk keyMissingChunk])
    else
      match weather weather_ !! 0%nat with
      | None => (Ok tt, [OnChunk (fallback (TypeError W "description"))])
      | Some condition =>
          let req := insightRequest W weather_ condition unit userIntent in
          match models_generateContentStream W req with
          | Throw e => (Ok tt, [GenerateContentStream req; OnChunk (fallback e)])
          | Ok streamResult =>
              (Ok tt,
               GenerateContentStream req
                 :: (OnChunk <$> deliveredChunks (chunks streamResult))
                 ++ match failure streamResult with
                    | Some e => [OnChunk (fallback e)]
                    | None => []
                    end)
          end
      end.
Proof.
  cbn zeta. unfold streamWeatherInsight.
  destruct (truthyStr (API_KEY W)); cbn [negb]; [| done].
  destruct (weather weather_ !! 0%nat) as [condition |]; cbn.
  2: { by destruct (insightQuotaSignal _). }
  unfold generateContentStream, perform, try_catch. unfold mbind, Eff_bind.
  destruct (models_generateContentStream W _) as [streamResult | e].
  - rewrite forAwait_run.
    destruct (failure streamResult) as [e |]; cbn; [| by rewrite app_nil_r].
    by destruct (insightQuotaSignal e).
  - by destruct (insightQuotaSignal e).
Qed.

(** [streamWeatherInsight] always returns normally and makes at
    most one streaming call. With a credential configured: when that
    call is rejected, [onChunk] is invoked exactly once: with the fixed
    apology when the rejection carries the resource-exhausted status or
    the code 429, with the fixed service-unavailable message otherwise,
    and nothing follows. When the failure comes before the call (no
    condition to describe) the service-unavailable rule applies alike,
    and when it comes while the stream is read, the one fixed message
    follows the chunks already delivered and ends the trace. *)
Lemma streamWeatherInsight_failure_chunks :
  ∀ W weather_ unit userIntent,
    let run := streamWeatherInsight W weather_ unit userIntent in
    let fallback (error : JsError) :=
      if insightQuotaSignal error then apologyChunk else offlineChunk in
    run.1 = Ok tt
    ∧ (length (streamCalls run.2) ≤ 1)%nat
    ∧ (truthyStr (API_KEY W) = true →
       (∀ condition e,
          weather weather_ !! 0%nat = Some condition →
          models_generateContentStream W
            (insightRequest W weather_ condition unit userIntent) = Throw e →
          (insightQuotaSignal e = true → chunksOf run.2 = [apologyChunk])
          ∧ (insightQuotaSignal e = false → chunksOf run.2 = [offlineChunk])
          ∧ length (chunksOf run.2) = 1%nat)
       ∧ (weather weather_ !! 0%nat = None →
          chunksOf run.2 = [fallback (TypeError W "description")]
          ∧ streamCalls run.2 = [])
       ∧ (∀ condition streamResult e,
            weather weather_ !! 0%nat = Some condition →
            models_generateContentStream W
              (insightRequest W weather_ condition unit userIntent) = Ok streamResult →
            failure streamResult = Some e →
            chunksOf run.2 = deliveredChunks (chunks streamResult) ++ [fallback e])).
Proof.
  intros W weather_ unit userIntent. cbn zeta.
  rewrite streamWeatherInsight_run. cbn zeta.
  split; [| split].
  - destruct (negb _); [done |].
    destruct (weather weather_ !! 0%nat); [| done].
    by destruct (models_generateContentStream W _).
  - destruct (negb _); [cbn; lia |].
    destruct (weather weather_ !! 0%nat); [| cbn; lia].
    destruct (models_generateContentStream W _) as [streamResult | e]; [| cbn; lia].
    cbn [snd].
    change (GenerateContentStream ?r :: ?l) with ([GenerateContentStream r] ++ l).
    rewrite !streamCalls_app, streamCalls_OnChunk.
    destruct (failure streamResult); cbn; lia.
  - intros ->. cbn [negb]. split; [| split].
    + intros condition e -> ->. cbn. by destruct (insightQuotaSignal e).
    + by intros ->.
    + intros condition streamResult e -> -> ->. cbn [snd].
      change (GenerateContentStream ?r :: ?l) with ([GenerateContentStream r] ++ l).
      by rewrite !chunksOf_app, chunksOf_OnChunk.
Qed.

Lemma parisSnapshot_fetched :
  (getCurrentWeather keylessParis "Paris" "" CELSIUS).1 = Ok parisSnapshot.
Proof. vm_compute. reflexivity. Qed.

(** C6. A rejection of the streaming call that carries the number 429
    only where the SDK puts it for an HTTP 429 answer (in the message,
    which [generateWeatherScene] takes for the quota signal) and not
    where the catch block of [streamWeatherInsight] looks (the status
    text RESOURCE_EXHAUSTED or the code 429) does not get the apology:
    [onChunk] is invoked once, with the service-unavailable message. *)
Theorem C6_quota_rejection_gets_service_unavailable :
  ∀ W weather_ condition unit userIntent e,
    truthyStr (API_KEY W) = true →
    weather weather_ !! 0%nat = Some condition →
    models_generateContentStream W
      (insightRequest W weather_ condition unit userIntent) = Throw e →
    sceneQuotaSignal e = true →
    insightQuotaSignal e = false →
    (streamWeatherInsight W weather_ unit userIntent).1 = Ok tt
    ∧ chunksOf (streamWeatherInsight W weather_ unit userIntent).2 = [offlineChunk]
    ∧ offlineChunk ≠ apologyChunk.
Proof.
  intros W weather_ condition unit userIntent e Hkey Hcondition Hrejected _ Hmissed.
  rewrite streamWeatherInsight_run. cbn zeta.
  rewrite Hkey, Hcondition, Hrejected, Hmissed. by cbn.
Qed.

(** C6 on Paris with every SDK call answered by HTTP 429: the scene
    generation reports the quota error, the insight reports the service
    as unavailable. *)
Lemma C6_quota_rejection_gets_service_unavailable_witness :
  status apiError429 = VNum 429
  ∧ (generateWeatherScene throttledParis parisSnapshot).1
    = Ok {| imageData := None; isQuotaError := true |}
  ∧ (streamWeatherInsight throttledParis parisSnapshot CELSIUS None).1 = Ok tt
  ∧ chunksOf (streamWeatherInsight throttledParis parisSnapshot CELSIUS None).2
    = [offlineChunk]
  ∧ offlineChunk ≠ apologyChunk.
Proof.
  split; [reflexivity |]. split; [vm_compute; reflexivity |].
  eapply (C6_quota_rejection_gets_service_unavailable throttledParis parisSnapshot _
            CELSIUS None apiError429); reflexivity.
Defined.

(** ** The generated scene and the retry countdown *)

(** Everything [generateWeatherScene] can do, case by case. *)
Lemma generateWeatherScene_run W weather_ :
  generateWeatherScene W weather_ =
    let degraded (error : JsError) :=
      {| imageData := None; isQuotaError := sceneQuotaSignal error |} in
    if negb (truthyStr (API_KEY W))
    then (Ok {| imageData := None; isQuotaError := false |}, [])
    else
      match weather weather_ !! 0%nat with
      | None => (Ok (degraded (TypeError W "icon")), [])
      | Some condition =>
          let req := sceneRequest weather_ condition in
          match models_generateContent W req with
          | Throw e => (Ok (degraded e), [GenerateContent req])
          | Ok response =>
              (Ok (firstInlineImage (default [] (parts response))), [GenerateContent req])
          end
      end.
Proof.
  cbn zeta. unfold generateWeatherScene.
  destruct (truthyStr (API_KEY W)); cbn [negb]; [| done].
  destruct (weather weather_ !! 0%nat) as [condition |]; cbn.
  2: { by destruct (sceneQuotaSignal _). }
  unfold generateContent, perform, try_catch. unfold mbind, Eff_bind.
  destruct (models_generateContent W _) as [response | e]; cbn; [done |].
  by destruct (sceneQuotaSignal e).
Qed.

Lemma generateWeatherScene_returns W weather_ :
  ∃ result, (generateWeatherScene W weather_).1 = Ok result.
Proof.
  rewrite generateWeatherScene_run. cbn zeta.
  destruct (negb _); [by eexists |].
  destruct (weather weather_ !! 0%nat); [| by eexists].
  destruct (models_generateContent W _); by eexists.
Qed.



Lemma timerTicks_countdown seconds st :
  0 ≤ retryCountdown st →
  retryCountdown (timerTicks seconds st) = Z.max 0 (retryCountdown st - Z.of_nat seconds).
Proof.
  revert st. induction seconds as [| k IH]; intros st Hpos; cbn [timerTicks].
  - lia.
  - unfold timerTick. destruct (Z.ltb_spec 0 (retryCountdown st)) as [Hlt | Hle].
    + rewrite IH; cbn; lia.
    + rewrite IH; lia.
Qed.


Lemma retryBackgroundGeneration_attempt W st weather_ result :
  currentWeather st = Some weather_ →
  retryCountdown st ≤ 0 →
  (generateWeatherScene W weather_).1 = Ok result →
  let st' := (retryBackgroundGeneration W st).1 in
  (retryBackgroundGeneration W st).2 = (generateWeatherScene W weather_).2
  ∧ if truthyStr (imageData result)
    then bgImage st' = imageData result ∧ bgQuotaError st' = false ∧ retryCountdown st' = 0
    else if isQuotaError result
    then bgQuotaError st' = true ∧ retryCountdown st' = 86400
    else bgQuotaError st' = bgQuotaError st ∧ retryCountdown st' = retryCountdown st.
Proof.
  intros Hweather Hzero Hscene. cbn zeta. unfold retryBackgroundGeneration.
  rewrite Hweather. destruct (Z.ltb_spec 0 (retryCountdown st)); [lia |].
  destruct (generateWeatherScene W weather_) as [scene generated].
  cbn in Hscene. subst scene.
  by destruct (truthyStr (imageData result)), (isQuotaError result).
Qed.



(** ** The search path *)

(** Everything [parseSearchQuery] can do, case by case. *)
Lemma parseSearchQuery_run W query :
  parseSearchQuery W query =
    let unparsed := {| p_city := query; p_intent := None |} in
    if negb (truthyStr (API_KEY W)) then (Ok unparsed, [])
    else
      (match models_generateContent W (parseRequest query) with
       | Throw _ => Ok unparsed
       | Ok response =>
           if truthyStr (text response)
           then match JSON_parse W (default "" (text response)) with
                | Ok parsed => Ok parsed
                | Throw _ => Ok unparsed
                end
           else Ok unparsed
       end,
       [GenerateContent (parseRequest query)]).
Proof.
  cbn zeta. unfold parseSearchQuery.
  destruct (truthyStr (API_KEY W)); cbn [negb]; [| done].
  unfold generateContent, perform, try_catch. unfold mbind, Eff_bind.
  destruct (models_generateContent W _) as [response | e]; [| done].
  destruct (truthyStr (text response)); [| done].
  by destruct (JSON_parse W _).
Qed.

Lemma contentCalls_app a b : contentCalls (a ++ b) = contentCalls a ++ contentCalls b.
Proof. apply omap_app. Qed.

Lemma contentCalls_OnChunk (delivered : list string) :
  contentCalls (OnChunk <$> delivered) = [].
Proof. by induction delivered. Qed.

Lemma getCurrentWeather_no_content_call W city key unit :
  contentCalls (getCurrentWeather W city key unit).2 = [].
Proof.
  by destruct (getCurrentWeather_trace W city key unit) as [-> | [location ->]].
Qed.

Lemma getForecast_no_content_call W city key unit :
  contentCalls (getForecast W city key unit).2 = [].
Proof.
  unfold getForecast. rewrite try_catch_rethrow_trace. unfold getForecast_try.
  rewrite bind_trace, getCoordinates_trace.
  destruct ((getCoordinates W city).1) as [location | e]; [| done].
  rewrite bind_trace. cbn [axios_get perform fst snd].
  destruct (axios W WEATHER_URL _) as [response | e]; [| done].
  rewrite bind_trace, reading_trace.
  destruct (reading _ _ _).1; [| done].
  rewrite bind_trace, reading_trace.
  by destruct (reading _ _ _).1.
Qed.

Lemma streamWeatherInsight_no_content_call W weather_ unit userIntent :
  contentCalls (streamWeatherInsight W weather_ unit userIntent).2 = [].
Proof.
  rewrite streamWeatherInsight_run. cbn zeta.
  destruct (negb _); [done |].
  destruct (weather weather_ !! 0%nat); [| done].
  destruct (models_generateContentStream W _) as [streamResult | e]; [| done].
  cbn [snd].
  change (GenerateContentStream ?r :: ?l) with ([GenerateContentStream r] ++ l).
  rewrite !contentCalls_app, contentCalls_OnChunk.
  by destruct (failure streamResult).
Qed.

Lemma generateWeatherScene_no_parse_call W weather_ :
  Forall (λ req, isParseCall req = false)
    (contentCalls (generateWeatherScene W weather_).2).
Proof.
  rewrite generateWeatherScene_run. cbn zeta.
  destruct (negb _); [by constructor |].
  destruct (weather weather_ !! 0%nat); [| by constructor].
  destruct (models_generateContent W _); by repeat constructor.
Qed.

(** [fetchData] never makes the parse call. *)
Lemma fetchData_no_parse_call W targetCity intent st :
  Forall (λ req, isParseCall req = false)
    (contentCalls (fetchData W targetCity intent st).2).
Proof.
  unfold fetchData.
  cbn [st_unit setLoading setError setInsight setBgImage setBgQuotaError
         setRetryCountdown setIsSpeaking setCurrentWeather setForecast setCity
         setLoadingInsight].
  pose proof (Promise_all_trace (race_current_forecast W)
                (getCurrentWeather W targetCity "" (st_unit st))
                (getForecast W targetCity "" (st_unit st))) as Hfetched.
  destruct (Promise_all _ _ _) as [[[weatherData forecastData] | err] fetched];
    cbn [snd] in Hfetched; subst fetched.
  - pose proof (streamWeatherInsight_no_content_call W weatherData (st_unit st) intent)
      as Hstreamed.
    pose proof (generateWeatherScene_no_parse_call W weatherData) as Hgenerated.
    destruct (streamWeatherInsight W weatherData (st_unit st) intent) as [r streamed].
    destruct (generateWeatherScene W weatherData) as [scene generated].
    cbn [snd] in *.
    rewrite !contentCalls_app, getCurrentWeather_no_content_call,
      getForecast_no_content_call, Hstreamed.
    exact Hgenerated.
  - cbn [snd].
    rewrite contentCalls_app, getCurrentWeather_no_content_call,
      getForecast_no_content_call.
    constructor.
Qed.

(** A query that does not need parsing goes to [fetchData] as it is. *)
Lemma handleSearch_passes_through W manualQuery st :
  trim (orElseStr manualQuery (searchQuery st)) ≠ "" →
  needsParsing (orElseStr manualQuery (searchQuery st)) = false →
  handleSearch W manualQuery st
  = fetchData W (orElseStr manualQuery (searchQuery st)) (Some "") (setUserIntent "" st).
Proof.
  intros Hblank Hshort. unfold handleSearch. cbn zeta. rewrite Hshort.
  by destruct (trim _).
Qed.

(** A blank query is dropped. *)
Lemma handleSearch_blank W manualQuery st :
  trim (orElseStr manualQuery (searchQuery st)) = "" →
  handleSearch W manualQuery st = (st, []).
Proof. intros Hblank. unfold handleSearch. cbn zeta. by rewrite Hblank. Qed.

(** When parsing gives the query back, the search goes on with the
    query as the city and the empty intent. *)
Lemma handleSearch_unparsed W manualQuery st :
  trim (orElseStr manualQuery (searchQuery st)) ≠ "" →
  needsParsing (orElseStr manualQuery (searchQuery st)) = true →
  (parseSearchQuery W (orElseStr manualQuery (searchQuery st))).1
  = Ok {| p_city := orElseStr manualQuery (searchQuery st); p_intent := None |} →
  (handleSearch W manualQuery st).1
  = (fetchData W (orElseStr manualQuery (searchQuery st)) (Some "")
       (setUserIntent "" (setLoading true st))).1.
Proof.
  intros Hblank Hlong Hunparsed. unfold handleSearch. cbn zeta. rewrite Hlong.
  destruct (trim _); [done |]. cbn [truthyStr negb].
  destruct (parseSearchQuery W _) as [r asked]. cbn in Hunparsed. subst r.
  cbn [p_city p_intent orElseStr].
  by destruct (fetchData W _ _ _).
Qed.

(** C7 as stated fails: a blank query has at most two tokens and at
    most 20 characters, yet the search path drops it: nothing is fetched
    and the state is unchanged, whereas passing it on as the city would
    have sent out a geocoding request. *)
Lemma C7_blank_query_is_dropped :
  (length (split_space (trim " ")) ≤ 2)%nat
  ∧ (String.length " " ≤ 20)%nat
  ∧ handleSearch keylessParis (Some " ") initialState = (initialState, [])
  ∧ (fetchData keylessParis " " (Some "") (setUserIntent "" initialState)).2 ≠ [].
Proof.
  split; [vm_compute; lia |]. split; [vm_compute; lia |]. split; [reflexivity |].
  vm_compute. discriminate.
Qed.

(** C7, as amended. For every query that is not blank, has at most two
    space-separated tokens and at most 20 characters, the search path
    hands the query itself to [fetchData] as the city, with the empty
    intent, and makes no parse call (so does the single token Paris); a
    blank query is dropped. [parseSearchQuery] always returns normally, and it returns the
    original query as the city with no intent when the credential is
    missing, when the call is rejected, when the answer has no text and
    when the text does not parse; the search then goes on with the
    query as the city. *)
Theorem C7_short_queries_pass_through_and_parse_failures_degrade :
  (∀ W manualQuery st,
     trim (orElseStr manualQuery (searchQuery st)) ≠ "" →
     (length (split_space (trim (orElseStr manualQuery (searchQuery st)))) ≤ 2)%nat →
     (String.length (orElseStr manualQuery (searchQuery st)) ≤ 20)%nat →
     handleSearch W manualQuery st
     = fetchData W (orElseStr manualQuery (searchQuery st)) (Some "")
         (setUserIntent "" st)
     ∧ Forall (λ req, isParseCall req = false)
         (contentCalls (handleSearch W manualQuery st).2))
  ∧ (∀ W st,
       handleSearch W (Some "Paris") st
       = fetchData W "Paris" (Some "") (setUserIntent "" st))
  ∧ (∀ W manualQuery st,
       trim (orElseStr manualQuery (searchQuery st)) = "" →
       handleSearch W manualQuery st = (st, []))
  ∧ (∀ W query, ∃ parsed, (parseSearchQuery W query).1 = Ok parsed)
  ∧ (∀ W query,
       truthyStr (API_KEY W) = false →
       parseSearchQuery W query = (Ok {| p_city := query; p_intent := None |}, []))
  ∧ (∀ W query e,
       models_generateContent W (parseRequest query) = Throw e →
       (parseSearchQuery W query).1 = Ok {| p_city := query; p_intent := None |})
  ∧ (∀ W query response,
       models_generateContent W (parseRequest query) = Ok response →
       truthyStr (text response) = false
       ∨ (∃ e, JSON_parse W (default "" (text response)) = Throw e) →
       (parseSearchQuery W query).1 = Ok {| p_city := query; p_intent := None |})
  ∧ (∀ W manualQuery st,
       trim (orElseStr manualQuery (searchQuery st)) ≠ "" →
       needsParsing (orElseStr manualQuery (searchQuery st)) = true →
       (parseSearchQuery W (orElseStr manualQuery (searchQuery st))).1
       = Ok {| p_city := orElseStr manualQuery (searchQuery st); p_intent := None |} →
       (handleSearch W manualQuery st).1
       = (fetchData W (orElseStr manualQuery (searchQuery st)) (Some "")
            (setUserIntent "" (setLoading true st))).1).
Proof.
  split.
  { intros W manualQuery st Hblank Htokens Hlength.
    assert (needsParsing (orElseStr manualQuery (searchQuery st)) = false) as Hshort.
    { unfold needsParsing. apply orb_false_iff. split; apply Nat.ltb_ge; lia. }
    rewrite (handleSearch_passes_through W manualQuery st Hblank Hshort).
    split; [reflexivity | apply fetchData_no_parse_call]. }
  split.
  { intros W st. by apply handleSearch_passes_through. }
  split; [exact handleSearch_blank |].
  split.
  { intros W query. rewrite parseSearchQuery_run. cbn zeta.
    destruct (negb _); [by eexists |]. cbn [fst].
    destruct (models_generateContent W _) as [response | e]; [| by eexists].
    destruct (truthyStr (text response)); [| by eexists].
    destruct (JSON_parse W _); by eexists. }
  split.
  { intros W query Hkey. rewrite parseSearchQuery_run. cbn zeta. by rewrite Hkey. }
  split.
  { intros W query e Hthrow. rewrite parseSearchQuery_run. cbn zeta.
    destruct (negb _); [done |]. cbn [fst]. by rewrite Hthrow. }
  split.
  { intros W query response Hresponse Hbad. rewrite parseSearchQuery_run. cbn zeta.
    destruct (negb _); [done |]. cbn [fst]. rewrite Hresponse.
    destruct Hbad as [-> | [e ->]]; [done |].
    by destruct (truthyStr (text response)). }
  exact handleSearch_unparsed.
Qed.

(** C7 on a two-token query, and on a long query whose parse call is
    rejected or cannot be made. *)
Lemma C7_short_queries_pass_through_and_parse_failures_degrade_witness :
  handleSearch quotaParis (Some "New York") initialState
  = fetchData quotaParis "New York" (Some "") (setUserIntent "" initialState)
  ∧ Forall (λ req, isParseCall req = false)
      (contentCalls (handleSearch quotaParis (Some "New York") initialState).2)
  ∧ parseSearchQuery keylessParis "Is it raining in Paris"
    = (Ok {| p_city := "Is it raining in Paris"; p_intent := None |}, [])
  ∧ (parseSearchQuery quotaParis "Is it raining in Paris").1
    = Ok {| p_city := "Is it raining in Paris"; p_intent := None |}
  ∧ (handleSearch quotaParis (Some "Is it raining in Paris") initialState).1
    = (fetchData quotaParis "Is it raining in Paris" (Some "")
         (setUserIntent "" (setLoading true initialState))).1.
Proof.
  destruct C7_short_queries_pass_through_and_parse_failures_degrade
    as (Hshort & _ & _ & _ & Hkey & Hthrow & _ & Hgoes).
  destruct (Hshort quotaParis (Some "New York") initialState) as [Hpass Hcalls];
    [discriminate | vm_compute; lia | vm_compute; lia |].
  split; [exact Hpass |]. split; [exact Hcalls |].
  split; [by apply Hkey |].
  split; [by apply (Hthrow quotaParis _ quotaError) |].
  apply (Hgoes quotaParis (Some "Is it raining in Paris") initialState);
    [discriminate | reflexivity |].
  by apply (Hthrow quotaParis _ quotaError).
Defined.

(* ================================================================= *)
(** * Further properties of the services and of the page *)

(** ** What a returned forecast holds *)

(** The whole record [getForecast] returns. *)
Lemma getForecast_Ok_shape W city key unit forecast :
  (getForecast W city key unit).1 = Ok forecast →
  ∃ location response daily hourly,
    (getCoordinates W city).1 = Ok location
    ∧ axios W WEATHER_URL
        (forecastParams (latitude location) (longitude location) unit) = Ok response
    ∧ data_daily response = Some daily
    ∧ data_hourly response = Some hourly
    ∧ forecast =
        {| fr_cod := "200";
           fr_message := 0;
           cnt := length (dailyList W daily);
           fr_list := dailyList W daily;
           fr_hourly := hourlyListOf W hourly;
           fr_city :=
             {| city_id := id location;
                city_name := name location;
                city_lat := latitude location;
                city_lon := longitude location;
                city_country := country location;
                population := 0;
                city_timezone := utc_offset_seconds response;
                city_sunrise := 0%float;
                city_sunset := 0%float |} |}.
Proof.
  unfold getForecast. intros Hok.
  apply try_catch_rethrow_Ok_inv in Hok. unfold getForecast_try in Hok.
  apply bind_Ok_inv in Hok as (location & Hlocation & Hok).
  apply bind_Ok_inv in Hok as (response & Hresponse & Hok).
  apply bind_Ok_inv in Hok as (daily & Hdaily%reading_Ok_inv & Hok).
  apply bind_Ok_inv in Hok as (hourly & Hhourly%reading_Ok_inv & Hok).
  injection Hok as <-.
  by exists location, response, daily, hourly.
Qed.

(** X1. In every forecast [getForecast] returns, [cnt] is the number of
    daily entries, there are at most five of them, and the five-day row
    of the page ([getDailyForecast]) shows them all. *)
Theorem forecast_daily_entries_counted_and_all_shown :
  ∀ W city key unit forecast,
    (getForecast W city key unit).1 = Ok forecast →
    cnt forecast = length (fr_list forecast)
    ∧ (length (fr_list forecast) ≤ 5)%nat
    ∧ getDailyForecast (fr_list forecast) = fr_list forecast.
Proof.
  intros W city key unit forecast Hok.
  apply getForecast_Ok_shape in Hok as (location & response & daily & hourly & _ & _ & _ & _ & ->).
  cbn [cnt fr_list].
  assert (length (dailyList W daily) ≤ 5)%nat as Hlen.
  { rewrite dailyList_spec, length_fmap, length_seq. lia. }
  split; [reflexivity |]. split; [exact Hlen |].
  unfold getDailyForecast. by apply take_ge.
Qed.

(** X1 on the Paris forecast. *)
Lemma forecast_daily_entries_counted_and_all_shown_witness :
  ∃ forecast,
    (getForecast keylessParis "Paris" "" CELSIUS).1 = Ok forecast
    ∧ cnt forecast = 5%nat
    ∧ getDailyForecast (fr_list forecast) = fr_list forecast.
Proof.
  assert (∃ forecast, (getForecast keylessParis "Paris" "" CELSIUS).1 = Ok forecast)
    as [forecast Hok] by (eexists; vm_compute; reflexivity).
  destruct (forecast_daily_entries_counted_and_all_shown keylessParis "Paris" ""
              CELSIUS forecast Hok) as (Hcnt & _ & Hshown).
  exists forecast. split; [exact Hok |]. split; [| exact Hshown].
  rewrite Hcnt. vm_compute in Hok. injection Hok as <-. reflexivity.
Defined.

Lemma getIconCode_js_in_cases wmoCode isDay : In (getIconCode_js wmoCode isDay) iconCases.
Proof.
  destruct wmoCode as [c |]; cbn [getIconCode_js]; [apply getIconCode_in_cases |].
  destruct (suffixOf_cases (default 0 isDay)) as [[_ ->] | [_ ->]]; in_list.
Qed.

Lemma getIconCode_js_day wmoCode : ∃ id_, getIconCode_js wmoCode (Some 1) = id_ +:+ "d".
Proof.
  destruct wmoCode as [c |]; cbn; [| by eexists].
  unfold getIconCode.
  repeat match goal with
         | |- context [if ?b then _ else _] => destruct b
         end; by eexists.
Qed.

(** X2. Every entry of a returned forecast carries exactly one weather
    condition whose icon code is one of the eighteen codes the
    [WeatherIcon] switch has a case for. A daily entry always has a day
    icon (suffix d) and the same text as [main] and [description]; an
    hourly entry has the empty description. *)
Theorem forecast_entries_have_known_icons :
  ∀ W city key unit forecast,
    (getForecast W city key unit).1 = Ok forecast →
    (∀ item, item ∈ fr_list forecast →
       ∃ condition,
         fi_weather item = [condition]
         ∧ In (icon condition) iconCases
         ∧ (∃ id_, icon condition = id_ +:+ "d")
         ∧ wc_main condition = description condition)
    ∧ (∀ item, item ∈ fr_hourly forecast →
         ∃ condition,
           hi_weather item = [condition]
           ∧ In (icon condition) iconCases
           ∧ description condition = "").
Proof.
  intros W city key unit forecast Hok.
  apply getForecast_Ok_shape in Hok as (location & response & daily & hourly & _ & _ & _ & _ & ->).
  cbn [fr_list fr_hourly]. split.
  - intros item [i Hi]%list_elem_of_lookup.
    apply dailyList_lookup in Hi as [_ ->].
    eexists. split; [reflexivity |]. cbn.
    split; [apply getIconCode_js_in_cases |]. split; [apply getIconCode_js_day | done].
  - intros item Hin. rewrite hourlyListOf_spec in Hin.
    apply list_elem_of_fmap in Hin as (i & -> & _).
    eexists. split; [reflexivity |]. cbn.
    split; [apply getIconCode_js_in_cases | done].
Qed.

(** X2 on the Paris forecast. *)
Lemma forecast_entries_have_known_icons_witness :
  ∃ forecast,
    (getForecast keylessParis "Paris" "" CELSIUS).1 = Ok forecast
    ∧ ∀ item, item ∈ fr_list forecast →
        ∃ condition, fi_weather item = [condition] ∧ In (icon condition) iconCases.
Proof.
  assert (∃ forecast, (getForecast keylessParis "Paris" "" CELSIUS).1 = Ok forecast)
    as [forecast Hok] by (eexists; vm_compute; reflexivity).
  destruct (forecast_entries_have_known_icons keylessParis "Paris" "" CELSIUS
              forecast Hok) as [Hdaily _].
  exists forecast. split; [exact Hok |].
  intros item Hin. destruct (Hdaily item Hin) as (condition & Hone & Hicon & _).
  by exists condition.
Defined.

(** ** Glyphs and gradients *)

(** X3. For every WMO code, the glyph drawn for the night icon is the
    glyph drawn for the day icon, except for the clear-sky family (01),
    where the night icon is the moon; a code outside every bucket gets
    the sun by day and the moon by night. *)
Theorem glyph_depends_on_night_only_for_clear_sky :
  ∀ wmoCode isDay className_,
    (WeatherIcon (getIconCode wmoCode isDay) className_
     = WeatherIcon (getIconCode wmoCode 1) className_)
    ∨ (isDay = 0
       ∧ getIconCode wmoCode isDay = "01n"
       ∧ getIconCode wmoCode 1 = "01d"
       ∧ glyph (WeatherIcon (getIconCode wmoCode isDay) className_) = Moon
       ∧ glyph (WeatherIcon (getIconCode wmoCode 1) className_) = Sun).
Proof.
  intros wmoCode isDay className_. unfold getIconCode.
  change (suffixOf 1) with "d".
  destruct (suffixOf_cases isDay) as [[Hnight ->] | [_ ->]];
    repeat match goal with
           | |- context [if ?b then _ else _] => destruct b
           end;
    first [ left; reflexivity | right; by repeat split ].
Qed.

(** X4. The page gradient chosen from the icon code of a WMO code does
    not depend on the is-day flag, and it is never the gradient of a
    page without weather. *)
Theorem gradient_ignores_day_night :
  ∀ wmoCode isDay isDay',
    getBackgroundClass (Some (getIconCode wmoCode isDay))
    = getBackgroundClass (Some (getIconCode wmoCode isDay'))
    ∧ getBackgroundClass (Some (getIconCode wmoCode isDay)) ≠ getBackgroundClass None.
Proof.
  intros wmoCode isDay isDay'. unfold getIconCode.
  destruct (suffixOf_cases isDay) as [[_ ->] | [_ ->]];
    destruct (suffixOf_cases isDay') as [[_ ->] | [_ ->]];
    repeat match goal with
           | |- context [if ?b then _ else _] => destruct b
           end;
    by split.
Qed.

(** X13. The colour and the wording of the air-quality card always
    belong together (green with Good, yellow with Moderate, orange with
    Unhealthy for Sensitive, red with Unhealthy), and a reading that is
    [undefined] or not a number is shown red and Unhealthy. *)
Theorem aqi_colour_and_wording_agree :
  ∀ reading_ : js float,
    In (getAQIColor reading_, getAQIDescription reading_)
      [ ("text-green-400", "Good"); ("text-yellow-400", "Moderate");
        ("text-orange-400", "Unhealthy for Sensitive"); ("text-red-500", "Unhealthy") ]
    ∧ (reading_ = None ∨ reading_ = Some nan →
       getAQIColor reading_ = "text-red-500" ∧ getAQIDescription reading_ = "Unhealthy").
Proof.
  intros reading_. split.
  - unfold getAQIColor, getAQIDescription.
    destruct (js_leb reading_ 50), (js_leb reading_ 100), (js_leb reading_ 150); in_list.
  - by intros [-> | ->].
Qed.

(** ** The parsing heuristic *)

Lemma split_space_length s : length (split_space s) = S (countSpaces s).
Proof.
  induction s as [| c rest IH]; [done |]. cbn [split_space countSpaces].
  destruct (Ascii.eqb c " "); cbn [length]; [by rewrite IH |].
  destruct (split_space rest) as [| piece pieces]; [discriminate IH |].
  cbn in *. lia.
Qed.

(** X16. A non-blank query is sent to the AI parser exactly when, once
    trimmed, it holds at least two single spaces, or when the untrimmed
    query is longer than 20 characters. *)
Theorem needsParsing_spaces_or_length :
  ∀ query,
    needsParsing query = true
    ↔ (2 ≤ countSpaces (trim query))%nat ∨ (20 < String.length query)%nat.
Proof.
  intros query. unfold needsParsing.
  rewrite orb_true_iff, !Nat.ltb_lt, split_space_length. lia.
Qed.

(** ** The countdown text *)

Lemma string_length_app a b :
  String.length (a +:+ b) = (String.length a + String.length b)%nat.
Proof.
  induction a as [| c a IH]; [done |].
  change (String c a +:+ b) with (String c (a +:+ b)). cbn. by rewrite IH.
Qed.

Lemma splitChar_lacking c a : lacksChar c a = true → splitChar c a = [a].
Proof.
  induction a as [| x a IH]; [done |]. cbn [lacksChar splitChar].
  destruct (Ascii.eqb x c); [discriminate |]. cbn [negb andb].
  intros Hlacks. by rewrite (IH Hlacks).
Qed.

Lemma splitChar_first_piece c a b :
  lacksChar c a = true → splitChar c (a +:+ String c b) = a :: splitChar c b.
Proof.
  induction a as [| x a IH].
  - change ("" +:+ String c b) with (String c b). cbn [splitChar].
    by rewrite Ascii.eqb_refl.
  - change (String x a +:+ String c b) with (String x (a +:+ String c b)).
    cbn [lacksChar splitChar].
    destruct (Ascii.eqb x c); [discriminate |]. cbn [negb andb].
    intros Hlacks. by rewrite (IH Hlacks).
Qed.

(** A number below 100 is padded to two digits, with no colon, and reads
    back as itself. *)
Lemma two_digits x :
  0 ≤ x < 100 →
  String.length (padStart 2 "0" (Z_toString x)) = 2%nat
  ∧ lacksChar ":" (padStart 2 "0" (Z_toString x)) = true
  ∧ Z.of_int <$> NilZero.int_of_string (padStart 2 "0" (Z_toString x)) = Some x.
Proof.
  intros Hrange.
  assert (forallb
            (λ x, (String.length (padStart 2 "0" (Z_toString x)) =? 2)%nat
                  && lacksChar ":" (padStart 2 "0" (Z_toString x))
                  && match NilZero.int_of_string (padStart 2 "0" (Z_toString x)) with
                     | Some d => Z.of_int d =? x
                     | None => false
                     end)
            (seqZ 0 100) = true) as Hall by (vm_compute; reflexivity).
  rewrite forallb_forall in Hall. specialize (Hall x).
  rewrite !andb_true_iff, Nat.eqb_eq in Hall.
  destruct Hall as [[Hlen Hlacks] Hreads]; [apply list_elem_of_In, elem_of_seqZ; lia |].
  split; [exact Hlen |]. split; [exact Hlacks |].
  destruct (NilZero.int_of_string _) as [d |]; [| discriminate]. cbn.
  f_equal. by apply Z.eqb_eq.
Qed.

(** X5. For every countdown value from 0 up to 100 hours (the page
    never holds more than 86400 seconds), the text [formatCountdown]
    shows has exactly eight characters (HH:MM:SS) and reads back as the
    same number of seconds, so two different countdown values are never
    shown alike. *)
Theorem formatCountdown_round_trip :
  ∀ seconds,
    0 ≤ seconds < 360000 →
    String.length (formatCountdown seconds) = 8%nat
    ∧ parseCountdown (formatCountdown seconds) = Some seconds.
Proof.
  intros seconds Hrange. unfold formatCountdown. cbn zeta.
  rewrite !Z.rem_mod_nonneg by lia.
  destruct (two_digits (seconds / 3600)) as (Hlen_h & Hlacks_h & Hreads_h);
    [split; [apply Z.div_pos | apply Z.div_lt_upper_bound]; lia |].
  destruct (two_digits (seconds `mod` 3600 / 60)) as (Hlen_m & Hlacks_m & Hreads_m).
  { pose proof (Z.mod_pos_bound seconds 3600).
    split; [apply Z.div_pos | apply Z.div_lt_upper_bound]; lia. }
  destruct (two_digits (seconds `mod` 60)) as (Hlen_s & Hlacks_s & Hreads_s).
  { pose proof (Z.mod_pos_bound seconds 60). lia. }
  split.
  - rewrite !string_length_app, Hlen_h, Hlen_m, Hlen_s. reflexivity.
  - unfold parseCountdown.
    repeat match goal with
           | |- context [":" +:+ ?x] => change (":" +:+ x) with (String ":" x)
           end.
    rewrite (splitChar_first_piece _ _ _ Hlacks_h), (splitChar_first_piece _ _ _ Hlacks_m),
      (splitChar_lacking _ _ Hlacks_s).
    rewrite Hreads_h, Hreads_m, Hreads_s. cbn. f_equal.
    pose proof (Z.div_mod seconds 3600). pose proof (Z.div_mod (seconds `mod` 3600) 60).
    assert ((seconds `mod` 3600) `mod` 60 = seconds `mod` 60) as Hmod.
    { apply Z.mod_mod_divide. by exists 60. }
    lia.
Qed.

(** X5 one hour, one minute and one second into the countdown. *)
Lemma formatCountdown_round_trip_witness :
  formatCountdown 3661 = "01:01:01"
  ∧ formatCountdown 86400 = "24:00:00"
  ∧ parseCountdown (formatCountdown 3661) = Some 3661.
Proof.
  split; [reflexivity |]. split; [reflexivity |].
  apply (formatCountdown_round_trip 3661). lia.
Defined.

(** ** What a search leaves on the page *)

Lemma string_app_nil_r s : s +:+ "" = s.
Proof.
  induction s as [| c s IH]; [done |].
  change (String c s +:+ "") with (String c (s +:+ "")). by rewrite IH.
Qed.

Lemma string_app_assoc a b c : (a +:+ b) +:+ c = a +:+ (b +:+ c).
Proof.
  induction a as [| x a IH]; [done |].
  change ((String x a +:+ b) +:+ c) with (String x ((a +:+ b) +:+ c)).
  by rewrite IH.
Qed.

(** The chunk callback rewrites the insight cell and nothing else. *)
Lemma deliverChunks_setInsight events accumulatedText st :
  deliverChunks events accumulatedText st
  = setInsight (insight (deliverChunks events accumulatedText st)) st.
Proof.
  revert accumulatedText st.
  induction events as [| [| | | chunk] rest IH]; intros accumulatedText st;
    cbn [deliverChunks]; [by destruct st | apply IH.. |].
  by rewrite IH at 1.
Qed.

(** The insight after the callback has seen a trace: untouched when the
    trace has no chunk, the accumulated text followed by the chunks in
    order otherwise. *)
Lemma deliverChunks_insight events accumulatedText st :
  insight (deliverChunks events accumulatedText st)
  = match chunksOf events with
    | [] => insight st
    | delivered => accumulatedText +:+ foldr String.append "" delivered
    end.
Proof.
  revert accumulatedText st.
  induction events as [| [| | | chunk] rest IH]; intros accumulatedText st;
    cbn [deliverChunks]; [done | apply IH.. |].
  rewrite IH. change (chunksOf (OnChunk chunk :: rest)) with (chunk :: chunksOf rest).
  cbn [foldr]. destruct (chunksOf rest) as [| next others].
  - cbn. by rewrite string_app_nil_r.
  - by rewrite string_app_assoc.
Qed.

(** The trace of [fetchData]: the two fetches, then, when both
    succeeded, the insight stream and the scene generation. *)
Lemma fetchData_trace W targetCity intent st :
  (fetchData W targetCity intent st).2
  = (getCurrentWeather W targetCity "" (st_unit st)).2
    ++ (getForecast W targetCity "" (st_unit st)).2
    ++ match (Promise_all (race_current_forecast W)
                (getCurrentWeather W targetCity "" (st_unit st))
                (getForecast W targetCity "" (st_unit st))).1 with
       | Ok (weatherData, _) =>
           (streamWeatherInsight W weatherData (st_unit st) intent).2
           ++ (generateWeatherScene W weatherData).2
       | Throw _ => []
       end.
Proof.
  unfold fetchData.
  cbn [st_unit setLoading setError setInsight setBgImage setBgQuotaError
         setRetryCountdown setIsSpeaking setCurrentWeather setForecast setCity
         setLoadingInsight].
  pose proof (Promise_all_trace (race_current_forecast W)
                (getCurrentWeather W targetCity "" (st_unit st))
                (getForecast W targetCity "" (st_unit st))) as Hfetched.
  destruct (Promise_all _ _ _) as [[[weatherData forecastData] | err] fetched];
    cbn [fst snd] in *; subst fetched.
  - destruct (streamWeatherInsight W weatherData (st_unit st) intent) as [r streamed].
    destruct (generateWeatherScene W weatherData) as [scene generated].
    cbn [snd]. by rewrite <- app_assoc.
  - by rewrite app_nil_r.
Qed.

(** Every field of the page after a search whose two fetches succeeded. *)
Lemma fetchData_fulfilled W targetCity intent st weatherData forecastData result :
  (Promise_all (race_current_forecast W)
     (getCurrentWeather W targetCity "" (st_unit st))
     (getForecast W targetCity "" (st_unit st))).1 = Ok (weatherData, forecastData) →
  (generateWeatherScene W weatherData).1 = Ok result →
  (fetchData W targetCity intent st).1
  = {| city := targetCity;
       currentWeather := Some weatherData;
       forecast := Some forecastData;
       st_unit := st_unit st;
       loading := false;
       error := None;
       searchQuery := searchQuery st;
       insight :=
         foldr String.append ""
           (chunksOf (streamWeatherInsight W weatherData (st_unit st) intent).2);
       loadingInsight := false;
       bgImage := if truthyStr (imageData result) then imageData result else None;
       loadingBg := false;
       bgQuotaError :=
         if truthyStr (imageData result) then false else isQuotaError result;
       retryCountdown :=
         if truthyStr (imageData result) then 0
         else if isQuotaError result then 86400 else 0;
       userIntent := userIntent st;
       isListening := isListening st;
       isSpeaking := false |}.
Proof.
  intros Hfetched Hscene. unfold fetchData.
  cbn [st_unit setLoading setError setInsight setBgImage setBgQuotaError
         setRetryCountdown setIsSpeaking setCurrentWeather setForecast setCity
         setLoadingInsight].
  destruct (Promise_all _ _ _) as [[[w f] | err] fetched]; cbn in Hfetched;
    [| discriminate].
  injection Hfetched as -> ->.
  assert (∀ page, insight page = "" →
            insight (deliverChunks
                       (streamWeatherInsight W weatherData (st_unit st) intent).2 "" page)
            = foldr String.append ""
                (chunksOf (streamWeatherInsight W weatherData (st_unit st) intent).2))
    as Hinsight.
  { intros page Hempty. rewrite deliverChunks_insight, Hempty.
    by destruct (chunksOf _). }
  destruct (streamWeatherInsight W weatherData (st_unit st) intent) as [r streamed].
  destruct (generateWeatherScene W weatherData) as [scene generated].
  cbn in Hscene. subst scene. cbn [fst snd] in *.
  rewrite deliverChunks_setInsight, Hinsight by reflexivity.
  by destruct (truthyStr (imageData result)), (isQuotaError result).
Qed.

(** Every field of the page after a search one of whose fetches failed. *)
Lemma fetchData_rejected_state W targetCity intent st err :
  (Promise_all (race_current_forecast W)
     (getCurrentWeather W targetCity "" (st_unit st))
     (getForecast W targetCity "" (st_unit st))).1 = Throw err →
  (fetchData W targetCity intent st).1
  = {| city := city st;
       currentWeather := None;
       forecast := None;
       st_unit := st_unit st;
       loading := false;
       error := Some (orElseStr (message err)
                        "Could not find weather data. Please try another city.");
       searchQuery := searchQuery st;
       insight := "";
       loadingInsight := loadingInsight st;
       bgImage := None;
       loadingBg := loadingBg st;
       bgQuotaError := false;
       retryCountdown := 0;
       userIntent := userIntent st;
       isListening := isListening st;
       isSpeaking := false |}.
Proof.
  intros Hrejected. unfold fetchData.
  cbn [st_unit setLoading setError setInsight setBgImage setBgQuotaError
         setRetryCountdown setIsSpeaking].
  destruct (Promise_all _ _ _) as [[[weatherData forecastData] | err'] fetched];
    cbn in Hrejected; [discriminate |].
  by injection Hrejected as ->.
Qed.

(** ** The page at rest *)

Lemma fetchData_keeps_invariant W targetCity intent st :
  loadingInsight st = false →
  loadingBg st = false →
  pageInvariant (fetchData W targetCity intent st).1.
Proof.
  intros Hinsight Hbg.
  destruct (Promise_all (race_current_forecast W)
              (getCurrentWeather W targetCity "" (st_unit st))
              (getForecast W targetCity "" (st_unit st))).1
    as [[weatherData forecastData] | err] eqn:Hfetched.
  - destruct (generateWeatherScene_returns W weatherData) as [result Hscene].
    rewrite (fetchData_fulfilled W targetCity intent st _ _ _ Hfetched Hscene).
    unfold pageInvariant. cbn.
    destruct (truthyStr (imageData result)), (isQuotaError result);
      repeat split; try done; try lia; by eauto.
  - rewrite (fetchData_rejected_state W targetCity intent st _ Hfetched).
    unfold pageInvariant. cbn. rewrite Hinsight, Hbg.
    repeat split; try done; try lia; by intros [? [=]].
Qed.

Lemma handleSearch_state W manualQuery st :
  (handleSearch W manualQuery st).1 = st
  ∨ ∃ targetCity intent page,
      (handleSearch W manualQuery st).1 = (fetchData W targetCity intent page).1
      ∧ loadingInsight page = loadingInsight st
      ∧ loadingBg page = loadingBg st
      ∧ st_unit page = st_unit st
      ∧ currentWeather page = currentWeather st.
Proof.
  unfold handleSearch. cbn zeta.
  destruct (negb _); [by left | right].
  destruct (needsParsing _).
  - destruct (parseSearchQuery W _) as [[parsed | e] asked].
    + exists (p_city parsed), (Some (orElseStr (p_intent parsed) "")),
        (setUserIntent (orElseStr (p_intent parsed) "") (setLoading true st)).
      split; [| done]. by destruct (fetchData W _ _ _).
    + exists (orElseStr manualQuery (searchQuery st)), (Some ""), (setLoading true st).
      split; [| done]. by destruct (fetchData W _ _ _).
  - eexists _, _, _. split; [reflexivity | done].
Qed.

Lemma retry_keeps_invariant W st :
  pageInvariant st →
  retryButtonVisible st = true →
  pageInvariant (retryBackgroundGeneration W st).1.
Proof.
  intros Hinv Hvisible.
  pose proof Hinv as (Hrange & Hruns & Hquota & Himage & Hboth & Herror & Hl & Hli & Hlb).
  unfold retryButtonVisible in Hvisible.
  apply andb_true_iff in Hvisible as [[[_ Hweather]%andb_true_iff Hflag]%andb_true_iff Hzero].
  apply bool_decide_eq_true in Hweather as [weather_ Hweather].
  apply negb_true_iff, Z.ltb_ge in Hzero.
  destruct (Hquota Hflag) as [Hnoimage _].
  destruct (generateWeatherScene_returns W weather_) as [result Hscene].
  unfold retryBackgroundGeneration. rewrite Hweather.
  destruct (Z.ltb_spec 0 (retryCountdown st)); [lia |].
  destruct (generateWeatherScene W weather_) as [scene generated].
  cbn in Hscene. subst scene. unfold pageInvariant.
  assert (is_Some (currentWeather st)) as Hsome by (rewrite Hweather; eauto).
  assert (error st = None) as Hnoerror.
  { destruct (error st) eqn:Hshown; [| done].
    assert (currentWeather st = None) by (apply Herror; eauto). congruence. }
  destruct (truthyStr (imageData result)), (isQuotaError result); cbn;
    rewrite ?Hnoimage, ?Hflag, ?Hnoerror;
    repeat split; intros; try done; try lia; try (by apply Hboth);
    try (by eauto); by apply Hquota.
Qed.

Lemma timerTick_keeps_invariant st : pageInvariant st → pageInvariant (timerTick st).
Proof.
  intros Hinv.
  pose proof Hinv as (Hrange & Hruns & Hquota & Himage & Hboth & Herror & Hl & Hli & Hlb).
  unfold timerTick. destruct (Z.ltb_spec 0 (retryCountdown st)); [| exact Hinv].
  unfold pageInvariant. cbn.
  repeat split; try done; try lia; try (by apply Hboth).
  - intros _. by apply Hruns.
  - by apply Hquota.
  - by apply Hquota.
Qed.

(** X6. The page starts with its invariant, and every handler that runs
    on its own (started on a page that satisfies the invariant, with
    nothing of an earlier handler still pending, and left alone until
    all it launched has settled) leaves a page that satisfies it again:
    the mount effect, typing, a search, the unit button, the retry
    button when it is rendered, and a tick of the timer. The invariant:
    the countdown lies between 0 and 86400 and is positive only under
    the quota flag; the quota flag and a generated image never hold
    together and both need weather on display; the weather and the
    forecast are present together; an error is never shown beside
    weather; and no loading flag stays set. *)
Theorem handlers_on_their_own_keep_invariant :
  pageInvariant initialState
  ∧ ∀ W st,
      pageInvariant st →
      pageInvariant (onMount W st).1
      ∧ (∀ text_, pageInvariant (setSearchQuery text_ st))
      ∧ (∀ manualQuery, pageInvariant (handleSearch W manualQuery st).1)
      ∧ pageInvariant (toggleUnit W st).1
      ∧ (retryButtonVisible st = true →
         pageInvariant (retryBackgroundGeneration W st).1)
      ∧ pageInvariant (timerTick st).
Proof.
  split.
  { unfold pageInvariant. cbn.
    repeat split; try done; try lia; by intros [? [=]]. }
  intros W st Hinv.
  pose proof Hinv as (_ & _ & _ & _ & _ & _ & Hl & Hli & Hlb).
  split; [by apply fetchData_keeps_invariant |].
  split; [intros text_; exact Hinv |].
  split; [| split; [| split]].
  - intros manualQuery.
    destruct (handleSearch_state W manualQuery st)
      as [-> | (targetCity & intent & page & -> & Hpi & Hpb & _)]; [exact Hinv |].
    apply fetchData_keeps_invariant; congruence.
  - unfold toggleUnit.
    destruct (currentWeather (setUnit _ st)); [| exact Hinv].
    by apply fetchData_keeps_invariant.
  - by apply retry_keeps_invariant.
  - by apply timerTick_keeps_invariant.
Qed.

(** X6 on a search for Paris with the quota used up, from the page as
    it starts, and on the tick that follows. *)
Lemma handlers_on_their_own_keep_invariant_witness :
  pageInvariant (handleSearch quotaParis (Some "Paris") initialState).1
  ∧ pageInvariant (timerTick (handleSearch quotaParis (Some "Paris") initialState).1)
  ∧ retryCountdown (timerTick (handleSearch quotaParis (Some "Paris") initialState).1)
    = 86399.
Proof.
  destruct handlers_on_their_own_keep_invariant as [Hstart Hkeeps].
  destruct (Hkeeps quotaParis initialState Hstart) as (_ & _ & Hsearch & _).
  destruct (Hkeeps quotaParis (handleSearch quotaParis (Some "Paris") initialState).1
              (Hsearch (Some "Paris"))) as (_ & _ & _ & _ & _ & Htick).
  split; [exact (Hsearch (Some "Paris")) |].
  split; [exact Htick | vm_compute; reflexivity].
Defined.

(** X7. A search ends in exactly one of two ways. Either both fetches
    succeeded: the page shows that snapshot and that forecast, no error,
    and the city cell is the searched city. Or one failed: weather and
    forecast are cleared, an error is shown, the insight, the image and
    the quota flag are reset, and the city cell keeps its old value. In
    both cases the unit and the text of the search box are untouched. *)
Theorem search_ends_in_weather_or_error :
  ∀ W targetCity intent st,
    ((∃ weatherData forecastData,
        (Promise_all (race_current_forecast W)
           (getCurrentWeather W targetCity "" (st_unit st))
           (getForecast W targetCity "" (st_unit st))).1 = Ok (weatherData, forecastData)
        ∧ currentWeather (fetchData W targetCity intent st).1 = Some weatherData
        ∧ forecast (fetchData W targetCity intent st).1 = Some forecastData
        ∧ error (fetchData W targetCity intent st).1 = None
        ∧ city (fetchData W targetCity intent st).1 = targetCity)
     ∨ (currentWeather (fetchData W targetCity intent st).1 = None
        ∧ forecast (fetchData W targetCity intent st).1 = None
        ∧ is_Some (error (fetchData W targetCity intent st).1)
        ∧ city (fetchData W targetCity intent st).1 = city st
        ∧ insight (fetchData W targetCity intent st).1 = ""
        ∧ bgImage (fetchData W targetCity intent st).1 = None
        ∧ bgQuotaError (fetchData W targetCity intent st).1 = false
        ∧ retryCountdown (fetchData W targetCity intent st).1 = 0))
    ∧ st_unit (fetchData W targetCity intent st).1 = st_unit st
    ∧ searchQuery (fetchData W targetCity intent st).1 = searchQuery st
    ∧ loading (fetchData W targetCity intent st).1 = false.
Proof.
  intros W targetCity intent st.
  destruct (Promise_all (race_current_forecast W)
              (getCurrentWeather W targetCity "" (st_unit st))
              (getForecast W targetCity "" (st_unit st))).1
    as [[weatherData forecastData] | err] eqn:Hfetched.
  - destruct (generateWeatherScene_returns W weatherData) as [result Hscene].
    rewrite (fetchData_fulfilled W targetCity intent st _ _ _ Hfetched Hscene). cbn.
    split; [left; by exists weatherData, forecastData | done].
  - rewrite (fetchData_rejected_state W targetCity intent st _ Hfetched). cbn.
    split; [right; by repeat split; eauto | done].
Qed.

(** X8. After a search whose fetches succeeded, the insight on the page
    is the concatenation, in order, of the chunks handed to the callback
    (the empty text when none was). When the streaming call was
    answered and the stream ended normally, these are the chunks with a
    non-empty text, in arrival order. *)
Theorem insight_is_the_chunks_in_order :
  ∀ W targetCity intent st weatherData forecastData,
    (Promise_all (race_current_forecast W)
       (getCurrentWeather W targetCity "" (st_unit st))
       (getForecast W targetCity "" (st_unit st))).1 = Ok (weatherData, forecastData) →
    insight (fetchData W targetCity intent st).1
    = foldr String.append ""
        (chunksOf (streamWeatherInsight W weatherData (st_unit st) intent).2)
    ∧ ∀ condition streamResult,
        truthyStr (API_KEY W) = true →
        weather weatherData !! 0%nat = Some condition →
        models_generateContentStream W
          (insightRequest W weatherData condition (st_unit st) intent) = Ok streamResult →
        failure streamResult = None →
        insight (fetchData W targetCity intent st).1
        = foldr String.append "" (deliveredChunks (chunks streamResult)).
Proof.
  intros W targetCity intent st weatherData forecastData Hfetched.
  destruct (generateWeatherScene_returns W weatherData) as [result Hscene].
  rewrite (fetchData_fulfilled W targetCity intent st _ _ _ Hfetched Hscene).
  cbn [insight]. split; [reflexivity |].
  intros condition streamResult Hkey Hcondition Hstream Hended.
  rewrite streamWeatherInsight_run. cbn zeta.
  rewrite Hkey, Hcondition, Hstream, Hended. cbn [negb snd].
  change (GenerateContentStream ?r :: ?l) with ([GenerateContentStream r] ++ l).
  by rewrite !chunksOf_app, chunksOf_OnChunk, app_nil_r.
Qed.

(** X8 on a search for Paris whose stream brings two chunks with text. *)
Lemma insight_is_the_chunks_in_order_witness :
  insight (fetchData chattyParis "Paris" None initialState).1 = "Grab an umbrella.".
Proof.
  assert (∃ fetched,
             (Promise_all (race_current_forecast chattyParis)
                (getCurrentWeather chattyParis "Paris" "" (st_unit initialState))
                (getForecast chattyParis "Paris" "" (st_unit initialState))).1
             = Ok fetched)
    as [[weatherData forecastData] Hfetched] by (eexists; vm_compute; reflexivity).
  pose proof Hfetched as Hvalues. vm_compute in Hvalues. injection Hvalues as <- <-.
  destruct (insight_is_the_chunks_in_order chattyParis "Paris" None initialState
              _ _ Hfetched) as [_ Hended].
  rewrite (Hended rainByDay insightAnswer); reflexivity.
Defined.

(** ** The generated scene *)

Lemma firstInlineImage_first before part inline after :
  Forall (λ p, inlineData p = None) before →
  inlineData part = Some inline →
  firstInlineImage (before ++ part :: after)
  = {| imageData := Some ("data:image/png;base64," +:+ interpolate (data inline));
       isQuotaError := false |}.
Proof.
  intros Hbefore Hpart. induction Hbefore as [| p before Hp _ IH]; cbn.
  - by rewrite Hpart.
  - by rewrite Hp.
Qed.

Lemma firstInlineImage_none ps :
  Forall (λ p, inlineData p = None) ps →
  firstInlineImage ps = {| imageData := None; isQuotaError := false |}.
Proof.
  intros Hnone. induction Hnone as [| p ps Hp _ IH]; cbn; [done | by rewrite Hp].
Qed.

(** X10. When the image call is answered, [generateWeatherScene] makes
    exactly that one call, never reports a quota error, and returns the
    payload of the first part that carries inline data, behind the
    data-URI prefix; when no part carries inline data (or the answer has
    no parts at all) it returns no image. *)
Theorem scene_is_the_first_inline_image :
  ∀ W weather_ condition response,
    truthyStr (API_KEY W) = true →
    weather weather_ !! 0%nat = Some condition →
    models_generateContent W (sceneRequest weather_ condition) = Ok response →
    ∃ result,
      generateWeatherScene W weather_
      = (Ok result, [GenerateContent (sceneRequest weather_ condition)])
      ∧ isQuotaError result = false
      ∧ (∀ before part inline after,
           parts response = Some (before ++ part :: after) →
           Forall (λ p, inlineData p = None) before →
           inlineData part = Some inline →
           imageData result
           = Some ("data:image/png;base64," +:+ interpolate (data inline)))
      ∧ (parts response = None
         ∨ (∃ ps, parts response = Some ps ∧ Forall (λ p, inlineData p = None) ps) →
         imageData result = None).
Proof.
  intros W weather_ condition response Hkey Hcondition Hresponse.
  rewrite generateWeatherScene_run. cbn zeta.
  rewrite Hkey, Hcondition, Hresponse. cbn [negb].
  eexists. split; [reflexivity |].
  split; [| split].
  - destruct (parts response) as [ps |]; cbn; [| done].
    induction ps as [| p ps IH]; cbn; [done |]. by destruct (inlineData p).
  - intros before part inline after -> Hbefore Hpart. cbn.
    by rewrite (firstInlineImage_first _ _ _ _ Hbefore Hpart).
  - intros [-> | (ps & -> & Hnone)]; cbn; [done |].
    by rewrite (firstInlineImage_none _ Hnone).
Qed.

(** X10 on an answer whose second part is the first image. *)
Lemma scene_is_the_first_inline_image_witness :
  (generateWeatherScene chattyParis parisSnapshot).1
  = Ok {| imageData := Some "data:image/png;base64,iVBORw0KGgo"; isQuotaError := false |}.
Proof.
  destruct (scene_is_the_first_inline_image chattyParis parisSnapshot
              rainByDay sceneAnswer eq_refl eq_refl eq_refl)
    as (result & Hrun & Hquota & Hfirst & _).
  rewrite Hrun. cbn [fst]. f_equal. destruct result as [image quota].
  cbn in Hquota. subst quota. f_equal.
  apply (Hfirst [ {| inlineData := None |} ]
           {| inlineData := Some {| data := Some "iVBORw0KGgo" |} |}
           {| data := Some "iVBORw0KGgo" |}
           [ {| inlineData := Some {| data := Some "R0lGODlh" |} |} ]);
    [reflexivity | by repeat constructor | reflexivity].
Defined.

(** ** The requests of a search *)

Lemma httpRequests_app a b : httpRequests (a ++ b) = httpRequests a ++ httpRequests b.
Proof. apply omap_app. Qed.

Lemma httpRequests_OnChunk (delivered : list string) :
  httpRequests (OnChunk <$> delivered) = [].
Proof. by induction delivered. Qed.

Lemma streamWeatherInsight_no_http W weather_ unit userIntent :
  httpRequests (streamWeatherInsight W weather_ unit userIntent).2 = [].
Proof.
  rewrite streamWeatherInsight_run. cbn zeta.
  destruct (negb _); [done |].
  destruct (weather weather_ !! 0%nat); [| done].
  destruct (models_generateContentStream W _) as [streamResult | e]; [| done].
  cbn [snd].
  change (GenerateContentStream ?r :: ?l) with ([GenerateContentStream r] ++ l).
  rewrite !httpRequests_app, httpRequests_OnChunk.
  by destruct (failure streamResult).
Qed.

Lemma generateWeatherScene_no_http W weather_ :
  httpRequests (generateWeatherScene W weather_).2 = [].
Proof.
  rewrite generateWeatherScene_run. cbn zeta.
  destruct (negb _); [done |].
  destruct (weather weather_ !! 0%nat); [| done].
  by destruct (models_generateContent W _).
Qed.

(** The requests of [getCurrentWeather]: the geocoding request, then the
    weather and the air-quality request for the first match. *)
Lemma getCurrentWeather_requests W city key unit :
  (getCurrentWeather W city key unit).2
  = HttpGet GEO_URL [ ("name", PStr city); ("count", PInt 1);
                      ("language", PStr "en"); ("format", PStr "json") ]
    :: match (getCoordinates W city).1 with
       | Ok location =>
           [ HttpGet WEATHER_URL
               (currentWeatherParams (latitude location) (longitude location) unit);
             HttpGet AQI_URL (airQualityParams (latitude location) (longitude location)) ]
       | Throw _ => []
       end.
Proof.
  unfold getCurrentWeather.
  rewrite try_catch_rethrow_trace. unfold getCurrentWeather_try.
  rewrite bind_trace, getCoordinates_trace.
  destruct ((getCoordinates W city).1) as [location | e]; [| done].
  rewrite bind_trace, Promise_all_trace. cbn [axios_get perform snd].
  destruct (Promise_all _ _ _).1 as [[weatherResponse aqiResponse] |]; [| done].
  rewrite bind_trace, reading_trace.
  destruct (reading _ _ _).1; [| done].
  rewrite bind_trace, reading_trace.
  destruct (reading _ _ _).1; [| done].
  rewrite bind_trace, reading_trace.
  by destruct (reading _ _ _).1.
Qed.

(** The requests of [getForecast]: the geocoding request, then the
    forecast request for the first match. *)
Lemma getForecast_requests W city key unit :
  (getForecast W city key unit).2
  = HttpGet GEO_URL [ ("name", PStr city); ("count", PInt 1);
                      ("language", PStr "en"); ("format", PStr "json") ]
    :: match (getCoordinates W city).1 with
       | Ok location =>
           [ HttpGet WEATHER_URL
               (forecastParams (latitude location) (longitude location) unit) ]
       | Throw _ => []
       end.
Proof.
  unfold getForecast. rewrite try_catch_rethrow_trace. unfold getForecast_try.
  rewrite bind_trace, getCoordinates_trace.
  destruct ((getCoordinates W city).1) as [location | e]; [| done].
  rewrite bind_trace. cbn [axios_get perform fst snd].
  destruct (axios W WEATHER_URL _) as [response | e]; [| done].
  rewrite bind_trace, reading_trace.
  destruct (reading _ _ _).1; [| done].
  rewrite bind_trace, reading_trace.
  by destruct (reading _ _ _).1.
Qed.

(** The requests of a search as the trace lists them: one fetch after
    the other. In time the two fetches overlap (both are started before
    either is awaited), so only the order inside each fetch is the order
    in which the requests go out. *)
Lemma fetchData_requests_listed :
  ∀ W targetCity intent st,
    let geocoding :=
      (GEO_URL, [ ("name", PStr targetCity); ("count", PInt 1);
                  ("language", PStr "en"); ("format", PStr "json") ]) in
    httpRequests (fetchData W targetCity intent st).2
    = match (getCoordinates W targetCity).1 with
      | Ok location =>
          [ geocoding;
            (WEATHER_URL,
             currentWeatherParams (latitude location) (longitude location) (st_unit st));
            (AQI_URL, airQualityParams (latitude location) (longitude location));
            geocoding;
            (WEATHER_URL,
             forecastParams (latitude location) (longitude location) (st_unit st)) ]
      | Throw _ => [geocoding; geocoding]
      end.
Proof.
  intros W targetCity intent st. cbn zeta.
  rewrite fetchData_trace, !httpRequests_app,
    getCurrentWeather_requests, getForecast_requests.
  assert (httpRequests
            match (Promise_all (race_current_forecast W)
                     (getCurrentWeather W targetCity "" (st_unit st))
                     (getForecast W targetCity "" (st_unit st))).1 with
            | Ok (weatherData, _) =>
                (streamWeatherInsight W weatherData (st_unit st) intent).2
                ++ (generateWeatherScene W weatherData).2
            | Throw _ => []
            end = []) as ->.
  { destruct (Promise_all _ _ _).1 as [[weatherData forecastData] |]; [| done].
    by rewrite httpRequests_app, streamWeatherInsight_no_http,
         generateWeatherScene_no_http. }
  by destruct ((getCoordinates W targetCity).1).
Qed.

(** X11. The requests of a search are those of its two fetches, which
    run side by side. Each fetch sends the geocoding request for the
    searched city first, so that request goes out twice. When the
    geocoder fails or has no match nothing else is requested. When it
    has one, [getCurrentWeather] goes on with the weather and then the
    air-quality request, and [getForecast] with the forecast request,
    all for the coordinates of the first match and in the unit of the
    page: five requests in all. (The world answers a request by its URL
    and parameters, so both geocoding requests get the same answer
    here.) *)
Theorem search_requests :
  ∀ W targetCity intent st,
    let geocoding :=
      (GEO_URL, [ ("name", PStr targetCity); ("count", PInt 1);
                  ("language", PStr "en"); ("format", PStr "json") ]) in
    httpRequests (fetchData W targetCity intent st).2
    ≡ₚ httpRequests (getCurrentWeather W targetCity "" (st_unit st)).2
       ++ httpRequests (getForecast W targetCity "" (st_unit st)).2
    ∧ httpRequests (getCurrentWeather W targetCity "" (st_unit st)).2
      = geocoding
        :: match (getCoordinates W targetCity).1 with
           | Ok location =>
               [ (WEATHER_URL,
                  currentWeatherParams (latitude location) (longitude location)
                    (st_unit st));
                 (AQI_URL, airQualityParams (latitude location) (longitude location)) ]
           | Throw _ => []
           end
    ∧ httpRequests (getForecast W targetCity "" (st_unit st)).2
      = geocoding
        :: match (getCoordinates W targetCity).1 with
           | Ok location =>
               [ (WEATHER_URL,
                  forecastParams (latitude location) (longitude location) (st_unit st)) ]
           | Throw _ => []
           end
    ∧ httpRequests (fetchData W targetCity intent st).2
      ≡ₚ match (getCoordinates W targetCity).1 with
         | Ok location =>
             [ geocoding; geocoding;
               (WEATHER_URL,
                currentWeatherParams (latitude location) (longitude location)
                  (st_unit st));
               (AQI_URL, airQualityParams (latitude location) (longitude location));
               (WEATHER_URL,
                forecastParams (latitude location) (longitude location) (st_unit st)) ]
         | Throw _ => [geocoding; geocoding]
         end.
Proof.
  intros W targetCity intent st. cbn zeta.
  rewrite fetchData_requests_listed, getCurrentWeather_requests, getForecast_requests.
  destruct ((getCoordinates W targetCity).1) as [location | e]; cbn.
  - split; [reflexivity |]. split; [reflexivity |]. split; [reflexivity |].
    apply Permutation_skip.
    change (?w :: ?a :: ?g :: ?f) with ([w; a] ++ g :: f).
    by rewrite <- Permutation_middle.
  - by repeat split.
Qed.

(** ** The SDK calls of a search *)

Lemma streamCalls_http_only (trace : list Event) :
  (∀ ev, ev ∈ trace → ∃ url params, ev = HttpGet url params) → streamCalls trace = [].
Proof.
  induction trace as [| ev rest IH]; [done |]. intros Hhttp.
  destruct (Hhttp ev) as (url & params & ->); [by left |]. cbn.
  apply IH. intros ev' Hin. apply Hhttp. by right.
Qed.

Lemma getCurrentWeather_no_stream_call W city key unit :
  streamCalls (getCurrentWeather W city key unit).2 = [].
Proof.
  rewrite getCurrentWeather_requests. by destruct ((getCoordinates W city).1).
Qed.

Lemma getForecast_no_stream_call W city key unit :
  streamCalls (getForecast W city key unit).2 = [].
Proof.
  rewrite getForecast_requests. by destruct ((getCoordinates W city).1).
Qed.

(** The trace of [handleSearch]: nothing for a blank query; otherwise
    the parse call when the query needs parsing, then a [fetchData] in
    the unit of the page. *)
Lemma handleSearch_trace W manualQuery st :
  trim (orElseStr manualQuery (searchQuery st)) ≠ "" →
  ∃ targetCity intent page,
    st_unit page = st_unit st
    ∧ (handleSearch W manualQuery st).2
      = (if needsParsing (orElseStr manualQuery (searchQuery st))
         then (parseSearchQuery W (orElseStr manualQuery (searchQuery st))).2
         else [])
        ++ (fetchData W targetCity intent page).2
    ∧ (handleSearch W manualQuery st).1 = (fetchData W targetCity intent page).1
    ∧ (∀ parsed,
         needsParsing (orElseStr manualQuery (searchQuery st)) = true →
         (parseSearchQuery W (orElseStr manualQuery (searchQuery st))).1 = Ok parsed →
         targetCity = p_city parsed
         ∧ intent = Some (orElseStr (p_intent parsed) "")
         ∧ userIntent page = orElseStr (p_intent parsed) "").
Proof.
  intros Hblank. unfold handleSearch. cbn zeta.
  destruct (trim _); [done |]. cbn [truthyStr negb].
  destruct (needsParsing _).
  - destruct (parseSearchQuery W _) as [[parsed | e] asked]; cbn [fst snd].
    + exists (p_city parsed), (Some (orElseStr (p_intent parsed) "")),
        (setUserIntent (orElseStr (p_intent parsed) "") (setLoading true st)).
      destruct (fetchData W _ _ _) as [page' fetched]. cbn.
      do 3 (split; [done |]). by intros parsed' _ [= <-].
    + exists (orElseStr manualQuery (searchQuery st)), (Some ""), (setLoading true st).
      destruct (fetchData W _ _ _) as [page' fetched]. by cbn.
  - by exists (orElseStr manualQuery (searchQuery st)), (Some ""), (setUserIntent "" st).
Qed.

Lemma filter_none {A} (f : A → bool) (l : list A) :
  Forall (λ x, f x = false) l → List.filter f l = [].
Proof. intros Hall. induction Hall as [| x l Hx _ IH]; cbn; [done | by rewrite Hx]. Qed.

Lemma fetchData_userIntent W targetCity intent st :
  userIntent (fetchData W targetCity intent st).1 = userIntent st.
Proof.
  destruct (Promise_all (race_current_forecast W)
              (getCurrentWeather W targetCity "" (st_unit st))
              (getForecast W targetCity "" (st_unit st))).1
    as [[weatherData forecastData] | err] eqn:Hjoined.
  - destruct (generateWeatherScene_returns W weatherData) as [result Hscene].
    by rewrite (fetchData_fulfilled W _ _ _ _ _ _ Hjoined Hscene).
  - by rewrite (fetchData_rejected_state W _ _ _ _ Hjoined).
Qed.

(** When parsing succeeds, the search goes on with the parsed city and
    the parsed intent. *)
Lemma handleSearch_parsed W manualQuery st parsed :
  trim (orElseStr manualQuery (searchQuery st)) ≠ "" →
  needsParsing (orElseStr manualQuery (searchQuery st)) = true →
  (parseSearchQuery W (orElseStr manualQuery (searchQuery st))).1 = Ok parsed →
  (handleSearch W manualQuery st).1
  = (fetchData W (p_city parsed) (Some (orElseStr (p_intent parsed) ""))
       (setUserIntent (orElseStr (p_intent parsed) "") (setLoading true st))).1.
Proof.
  intros Hblank Hlong Hparsed. unfold handleSearch. cbn zeta. rewrite Hlong.
  destruct (trim _); [done |]. cbn [truthyStr negb].
  destruct (parseSearchQuery W _) as [r asked]. cbn in Hparsed. subst r.
  by destruct (fetchData W _ _ _).
Qed.

(** X12. With a credential configured, a non-blank search makes the
    parse call exactly once when the query needs parsing and never
    otherwise, and the parse call comes before every other effect. When
    the parse succeeds, the search then runs for the parsed city, and
    the parsed intent (the empty text when there is none) is what the
    page keeps and what the insight is asked about. *)
Theorem parse_call_once_then_search_parsed_city :
  ∀ W manualQuery st,
    trim (orElseStr manualQuery (searchQuery st)) ≠ "" →
    truthyStr (API_KEY W) = true →
    List.filter isParseCall (contentCalls (handleSearch W manualQuery st).2)
    = (if needsParsing (orElseStr manualQuery (searchQuery st))
       then [parseRequest (orElseStr manualQuery (searchQuery st))]
       else [])
    ∧ (needsParsing (orElseStr manualQuery (searchQuery st)) = true →
       (∃ rest,
          (handleSearch W manualQuery st).2
          = GenerateContent (parseRequest (orElseStr manualQuery (searchQuery st)))
            :: rest)
       ∧ ∀ parsed,
           (parseSearchQuery W (orElseStr manualQuery (searchQuery st))).1 = Ok parsed →
           (handleSearch W manualQuery st).1
           = (fetchData W (p_city parsed) (Some (orElseStr (p_intent parsed) ""))
                (setUserIntent (orElseStr (p_intent parsed) "") (setLoading true st))).1
           ∧ userIntent (handleSearch W manualQuery st).1
             = orElseStr (p_intent parsed) "").
Proof.
  intros W manualQuery st Hblank Hkey.
  destruct (handleSearch_trace W manualQuery st Hblank)
    as (targetCity & intent & page & _ & Htrace & Hstate & Hparsed).
  assert ((parseSearchQuery W (orElseStr manualQuery (searchQuery st))).2
          = [GenerateContent (parseRequest (orElseStr manualQuery (searchQuery st)))])
    as Hasked.
  { rewrite parseSearchQuery_run. cbn zeta. by rewrite Hkey. }
  rewrite Htrace, contentCalls_app, List.filter_app,
    (filter_none _ _ (fetchData_no_parse_call W targetCity intent page)), app_nil_r.
  split.
  - destruct (needsParsing _); [| done]. by rewrite Hasked.
  - intros Hneeds. rewrite Hneeds, Hasked. split; [by eexists |].
    intros parsed Hok.
    rewrite (handleSearch_parsed W manualQuery st parsed Hblank Hneeds Hok).
    split; [reflexivity |]. by rewrite fetchData_userIntent.
Qed.

(** X12 on a question about Paris. *)
Lemma parse_call_once_then_search_parsed_city_witness :
  List.filter isParseCall
    (contentCalls (handleSearch chattyParis (Some "Is it raining in Paris") initialState).2)
  = [parseRequest "Is it raining in Paris"]
  ∧ city (handleSearch chattyParis (Some "Is it raining in Paris") initialState).1 = "Paris"
  ∧ userIntent (handleSearch chattyParis (Some "Is it raining in Paris") initialState).1
    = "raining".
Proof.
  destruct (parse_call_once_then_search_parsed_city chattyParis
              (Some "Is it raining in Paris") initialState)
    as [Hcalls Hneeds]; [discriminate | reflexivity |].
  destruct (Hneeds eq_refl) as [_ Hparsed].
  destruct (Hparsed {| p_city := "Paris"; p_intent := Some "raining" |} eq_refl)
    as [Hstate Hintent].
  split; [exact Hcalls |]. split; [| exact Hintent].
  rewrite Hstate. vm_compute. reflexivity.
Defined.

(** ** Without a credential *)

Lemma fetchData_unit W targetCity intent st :
  st_unit (fetchData W targetCity intent st).1 = st_unit st.
Proof. by destruct (search_ends_in_weather_or_error W targetCity intent st) as (_ & ? & _). Qed.

Lemma fetchData_without_key W targetCity intent st :
  truthyStr (API_KEY W) = false →
  contentCalls (fetchData W targetCity intent st).2 = []
  ∧ streamCalls (fetchData W targetCity intent st).2 = [].
Proof.
  intros Hkey. rewrite fetchData_trace.
  rewrite !contentCalls_app, !streamCalls_app,
    getCurrentWeather_no_content_call, getForecast_no_content_call,
    getCurrentWeather_no_stream_call, getForecast_no_stream_call.
  destruct (Promise_all _ _ _).1 as [[weatherData forecastData] |]; [| done].
  rewrite streamWeatherInsight_run, generateWeatherScene_run. cbn zeta.
  by rewrite Hkey.
Qed.

(** X9. With no credential configured, no SDK call is ever made: not by
    a search (whatever the query), not by a retry. A search then leaves
    no image, no quota flag and no countdown, and when its fetches
    succeed the insight is the fixed missing-key message. *)
Theorem without_key_no_sdk_call :
  ∀ W,
    truthyStr (API_KEY W) = false →
    (∀ manualQuery st,
       contentCalls (handleSearch W manualQuery st).2 = []
       ∧ streamCalls (handleSearch W manualQuery st).2 = [])
    ∧ (∀ st, (retryBackgroundGeneration W st).2 = [])
    ∧ (∀ targetCity intent st,
         bgImage (fetchData W targetCity intent st).1 = None
         ∧ bgQuotaError (fetchData W targetCity intent st).1 = false
         ∧ retryCountdown (fetchData W targetCity intent st).1 = 0
         ∧ (is_Some (currentWeather (fetchData W targetCity intent st).1) →
            insight (fetchData W targetCity intent st).1 = keyMissingChunk)).
Proof.
  intros W Hkey. split; [| split].
  - intros manualQuery st.
    destruct (trim (orElseStr manualQuery (searchQuery st))) as [| c r] eqn:Hblank.
    { by rewrite (handleSearch_blank W manualQuery st Hblank). }
    destruct (handleSearch_trace W manualQuery st)
      as (targetCity & intent & page & _ & -> & _); [by rewrite Hblank |].
    rewrite contentCalls_app, streamCalls_app.
    destruct (fetchData_without_key W targetCity intent page Hkey) as [-> ->].
    destruct (needsParsing _); [| done].
    rewrite parseSearchQuery_run. cbn zeta. by rewrite Hkey.
  - intros st. unfold retryBackgroundGeneration.
    destruct (currentWeather st) as [weather_ |]; [| done].
    destruct (0 <? retryCountdown st); [done |].
    rewrite generateWeatherScene_run. cbn zeta. by rewrite Hkey.
  - intros targetCity intent st.
    destruct (Promise_all (race_current_forecast W)
                (getCurrentWeather W targetCity "" (st_unit st))
                (getForecast W targetCity "" (st_unit st))).1
      as [[weatherData forecastData] | err] eqn:Hjoined.
    + assert ((generateWeatherScene W weatherData).1
              = Ok {| imageData := None; isQuotaError := false |}) as Hscene.
      { rewrite generateWeatherScene_run. cbn zeta. by rewrite Hkey. }
      rewrite (fetchData_fulfilled W _ _ _ _ _ _ Hjoined Hscene). cbn.
      do 3 (split; [done |]). intros _.
      rewrite streamWeatherInsight_run. cbn zeta. rewrite Hkey. cbn.
      apply string_app_nil_r.
    + rewrite (fetchData_rejected_state W _ _ _ _ Hjoined). cbn.
      do 3 (split; [done |]). by intros [? [=]].
Qed.

(** X9 on searches for Paris with no API key. *)
Lemma without_key_no_sdk_call_witness :
  contentCalls (handleSearch keylessParis (Some "Is it raining in Paris") initialState).2 = []
  ∧ streamCalls (handleSearch keylessParis (Some "Is it raining in Paris") initialState).2
    = []
  ∧ insight (fetchData keylessParis "Paris" None initialState).1 = keyMissingChunk.
Proof.
  destruct (without_key_no_sdk_call keylessParis eq_refl) as (Hsearch & _ & Hfetch).
  destruct (Hsearch (Some "Is it raining in Paris") initialState) as [Hcontent Hstream].
  destruct (Hfetch "Paris" None initialState) as (_ & _ & _ & Hinsight).
  split; [exact Hcontent |]. split; [exact Hstream |].
  apply Hinsight. vm_compute. by eexists.
Defined.

(** ** The unit button *)

(** X14. The unit button flips the unit, so pressing it twice restores
    it. With no weather on display it requests nothing; with weather on
    display it searches again for the city of the last successful
    search, and every request that then goes to the weather endpoint
    asks for the new unit. *)
Theorem unit_button_refetches_in_new_unit :
  ∀ W st,
    let flipped := match st_unit st with CELSIUS => FAHRENHEIT | FAHRENHEIT => CELSIUS end in
    st_unit (toggleUnit W st).1 = flipped
    ∧ (∀ W', st_unit (toggleUnit W' (toggleUnit W st).1).1 = st_unit st)
    ∧ (currentWeather st = None → toggleUnit W st = (setUnit flipped st, []))
    ∧ (is_Some (currentWeather st) →
       toggleUnit W st = fetchData W (city st) None (setUnit flipped st)
       ∧ ∀ url params,
           (url, params) ∈ httpRequests (toggleUnit W st).2 →
           url = WEATHER_URL →
           param "temperature_unit" params = Some (PStr (temperature_unit flipped))).
Proof.
  intros W st. cbn zeta.
  assert (∀ V page,
            st_unit (toggleUnit V page).1
            = match st_unit page with CELSIUS => FAHRENHEIT | FAHRENHEIT => CELSIUS end)
    as Hflip.
  { intros V page. unfold toggleUnit.
    destruct (currentWeather (setUnit _ page)); [| done]. by rewrite fetchData_unit. }
  split; [apply Hflip |]. split; [| split].
  - intros W'. rewrite !Hflip. by destruct (st_unit st).
  - intros Hnone. unfold toggleUnit.
    change (currentWeather (setUnit ?u st)) with (currentWeather st). by rewrite Hnone.
  - intros [weather_ Hshown].
    assert (toggleUnit W st
            = fetchData W (city st) None
                (setUnit match st_unit st with
                         | CELSIUS => FAHRENHEIT
                         | FAHRENHEIT => CELSIUS
                         end st)) as Htoggle.
    { unfold toggleUnit.
      change (currentWeather (setUnit ?u st)) with (currentWeather st).
      by rewrite Hshown. }
    split; [exact Htoggle |].
    intros url params Hin ->. rewrite Htoggle, fetchData_requests_listed in Hin.
    cbn [st_unit setUnit] in Hin.
    destruct ((getCoordinates W (city st)).1) as [location | e].
    + repeat (apply elem_of_cons in Hin as [Hin | Hin]; [by inversion Hin |]).
      by apply elem_of_nil in Hin.
    + repeat (apply elem_of_cons in Hin as [Hin | Hin]; [by inversion Hin |]).
      by apply elem_of_nil in Hin.
Qed.

(** X14 with Paris on display in Celsius. *)
Lemma unit_button_refetches_in_new_unit_witness :
  st_unit (toggleUnit keylessParis showingParis).1 = FAHRENHEIT
  ∧ toggleUnit keylessParis showingParis
    = fetchData keylessParis "Paris" None (setUnit FAHRENHEIT showingParis)
  ∧ toggleUnit keylessParis initialState = (setUnit FAHRENHEIT initialState, []).
Proof.
  destruct (unit_button_refetches_in_new_unit keylessParis showingParis)
    as (Hflip & _ & _ & Hshown).
  destruct (unit_button_refetches_in_new_unit keylessParis initialState)
    as (_ & _ & Hnone & _).
  split; [exact Hflip |]. split; [| exact (Hnone eq_refl)].
  destruct Hshown as [Hrefetch _]; [vm_compute; by eexists | exact Hrefetch].
Defined.

(** ** The retry once the countdown has run out *)

Lemma timerTicks_keeps_weather seconds st :
  currentWeather (timerTicks seconds st) = currentWeather st.
Proof.
  revert st. induction seconds as [| k IH]; intros st; cbn [timerTicks]; [done |].
  rewrite IH. unfold timerTick. by destruct (0 <? retryCountdown st).
Qed.

(** X15. The timer brings a countdown down to zero in as many seconds
    as it holds and keeps it there. From then on a retry is attempted:
    with a credential and a condition to describe it makes exactly one
    image call, and when that call brings an image the image is shown,
    the quota flag is cleared and the countdown stays at zero. *)
Theorem retry_goes_through_once_countdown_elapsed :
  ∀ W st seconds weather_ condition,
    0 ≤ retryCountdown st ≤ Z.of_nat seconds →
    currentWeather st = Some weather_ →
    truthyStr (API_KEY W) = true →
    weather weather_ !! 0%nat = Some condition →
    retryCountdown (timerTicks seconds st) = 0
    ∧ (retryBackgroundGeneration W (timerTicks seconds st)).2
      = [GenerateContent (sceneRequest weather_ condition)]
    ∧ ∀ result,
        (generateWeatherScene W weather_).1 = Ok result →
        truthyStr (imageData result) = true →
        bgImage (retryBackgroundGeneration W (timerTicks seconds st)).1 = imageData result
        ∧ bgQuotaError (retryBackgroundGeneration W (timerTicks seconds st)).1 = false
        ∧ retryCountdown (retryBackgroundGeneration W (timerTicks seconds st)).1 = 0.
Proof.
  intros W st seconds weather_ condition Hcountdown Hweather Hkey Hcondition.
  assert (retryCountdown (timerTicks seconds st) = 0) as Hzero.
  { rewrite timerTicks_countdown; lia. }
  assert (currentWeather (timerTicks seconds st) = Some weather_) as Hshown.
  { by rewrite timerTicks_keeps_weather. }
  destruct (generateWeatherScene_returns W weather_) as [result Hscene].
  destruct (retryBackgroundGeneration_attempt W (timerTicks seconds st) weather_ result
              Hshown ltac:(lia) Hscene) as [Htrace Hfields].
  split; [exact Hzero |]. split.
  - rewrite Htrace, generateWeatherScene_run. cbn zeta.
    rewrite Hkey, Hcondition. cbn [negb].
    by destruct (models_generateContent W _).
  - intros result' Hscene' Himage.
    assert (result' = result) as -> by congruence.
    by rewrite Himage in Hfields.
Qed.

(** X15 five seconds after a five-second countdown began, with the quota
    restored. *)
Lemma retry_goes_through_once_countdown_elapsed_witness :
  retryCountdown (timerTicks 5 (setRetryCountdown 5 (setBgQuotaError true showingParis)))
  = 0
  ∧ bgImage
      (retryBackgroundGeneration chattyParis
         (timerTicks 5 (setRetryCountdown 5 (setBgQuotaError true showingParis)))).1
    = Some "data:image/png;base64,iVBORw0KGgo".
Proof.
  destruct (retry_goes_through_once_countdown_elapsed chattyParis
              (setRetryCountdown 5 (setBgQuotaError true showingParis)) 5
              parisSnapshot rainByDay)
    as (Hzero & _ & Himage);
    [cbn; lia | vm_compute; reflexivity | reflexivity | reflexivity |].
  split; [exact Hzero |].
  destruct (Himage {| imageData := Some "data:image/png;base64,iVBORw0KGgo";
                      isQuotaError := false |})
    as (Hshown & _); [vm_compute; reflexivity | reflexivity | exact Hshown].
Defined.



(** ** Day and night in the scene prompt *)

(** X17. The scene prompt tells night from day by looking for the
    letter n in the icon code. On the icon code of any WMO code this is
    right: the prompt is a night prompt exactly when the is-day flag is
    zero. *)
Theorem scene_prompt_is_night_exactly_when_flag_is_zero :
  ∀ wmoCode isDay,
    includes (getIconCode wmoCode isDay) "n" = (isDay =? 0)
    ∧ ∀ weather_ condition,
        icon condition = getIconCode wmoCode isDay →
        contents (sceneRequest weather_ condition)
        = scenePrompt (cw_name weather_) (if isDay =? 0 then "night" else "day")
            (description condition).
Proof.
  intros wmoCode isDay.
  assert (includes (getIconCode wmoCode isDay) "n" = (isDay =? 0)) as Hnight.
  { unfold getIconCode, suffixOf.
    destruct (isDay =? 0);
      repeat match goal with
             | |- context [if ?b then _ else _] => destruct b
             end; reflexivity. }
  split; [exact Hnight |].
  intros weather_ condition Hicon. unfold sceneRequest. cbn.
  by rewrite Hicon, Hnight.
Qed.

(** X17 on rain by night. *)
Lemma scene_prompt_is_night_exactly_when_flag_is_zero_witness :
  contents (sceneRequest parisSnapshot
              {| wc_id := Some 61; wc_main := "Slight rain";
                 description := "Slight rain"; icon := "10n" |})
  = scenePrompt (Some "Paris") "night" "Slight rain".
Proof.
  destruct (scene_prompt_is_night_exactly_when_flag_is_zero 61 0) as [_ Hprompt].
  exact (Hprompt parisSnapshot
           {| wc_id := Some 61; wc_main := "Slight rain";
              description := "Slight rain"; icon := "10n" |} eq_refl).
Defined.

(** ** The snapshot a search returns *)

(** X19. Every snapshot [getCurrentWeather] returns carries exactly one
    weather condition, whose headline and description are the same
    non-empty text and whose icon code is one the icon component knows;
    its country is never empty (XX stands in for a missing one); its
    air-quality record is always present; and its status code is 200. *)
Theorem snapshot_has_one_condition_a_country_and_air_quality :
  ∀ W city key unit snapshot,
    (getCurrentWeather W city key unit).1 = Ok snapshot →
    (∃ condition,
       weather snapshot = [condition]
       ∧ wc_main condition = description condition
       ∧ description condition ≠ ""
       ∧ In (icon condition) iconCases)
    ∧ sys_country (sys snapshot) ≠ ""
    ∧ is_Some (aqi snapshot)
    ∧ cod snapshot = 200.
Proof.
  intros W city key unit snapshot Hok. unfold getCurrentWeather in Hok.
  apply try_catch_rethrow_Ok_inv in Hok. unfold getCurrentWeather_try in Hok.
  apply bind_Ok_inv in Hok as (location & _ & Hok).
  apply bind_Ok_inv in Hok as ([weatherResponse aqiResponse] & _ & Hok).
  apply bind_Ok_inv in Hok as (current & _ & Hok).
  apply bind_Ok_inv in Hok as (daily & _ & Hok).
  apply bind_Ok_inv in Hok as (air & _ & Hok).
  injection Hok as <-. cbn. split; [| split; [| split]].
  - eexists. split; [reflexivity |]. cbn. split; [reflexivity |]. split.
    + destruct (weather_code current) as [c |]; [| done].
      by apply orElseStr_fallback_nonempty.
    + apply getIconCode_js_in_cases.
  - by apply orElseStr_fallback_nonempty.
  - by eexists.
  - reflexivity.
Qed.

(** X19 on the snapshot fetched for Paris. *)
Lemma snapshot_has_one_condition_a_country_and_air_quality_witness :
  sys_country (sys parisSnapshot) ≠ "" ∧ is_Some (aqi parisSnapshot).
Proof.
  destruct (snapshot_has_one_condition_a_country_and_air_quality
              keylessParis "Paris" "" CELSIUS parisSnapshot parisSnapshot_fetched)
    as (_ & Hcountry & Hair & _).
  by split.
Defined.

(** X20. The air-quality request is not optional: when the city is found
    but that request is rejected, or answers without a current section,
    [getCurrentWeather] rejects, whatever the weather request answered;
    and the search then shows an error and neither weather nor forecast. *)
Theorem air_quality_failure_fails_the_search :
  ∀ W targetCity intent st location,
    (getCoordinates W targetCity).1 = Ok location →
    (∀ adata,
       axios W AQI_URL (airQualityParams (latitude location) (longitude location))
       = Ok adata →
       data_current adata = None) →
    (∃ e, (getCurrentWeather W targetCity "" (st_unit st)).1 = Throw e)
    ∧ currentWeather (fetchData W targetCity intent st).1 = None
    ∧ forecast (fetchData W targetCity intent st).1 = None
    ∧ is_Some (error (fetchData W targetCity intent st).1).
Proof.
  intros W targetCity intent st location Hgeo Hair.
  assert (∃ inner, (getCurrentWeather_try W targetCity (st_unit st)).1 = Throw inner)
    as [inner Hinner].
  { unfold getCurrentWeather_try.
    destruct (getCoordinates W targetCity) as [[found | e] geocoded];
      cbn in Hgeo; [| discriminate].
    injection Hgeo as ->. unfold axios_get, perform, Promise_all.
    unfold mbind at 1, Eff_bind at 1.
    destruct (axios W WEATHER_URL _) as [wdata | e1];
      destruct (axios W AQI_URL _) as [adata | e2] eqn:Hadata; cbn.
    - rewrite (Hair adata eq_refl).
      destruct (data_current wdata), (data_daily wdata); cbn; eauto.
    - eauto.
    - eauto.
    - destruct (race_weather_aqi W); eauto. }
  assert (∃ e, (getCurrentWeather W targetCity "" (st_unit st)).1 = Throw e)
    as Hrejects.
  { eexists. unfold getCurrentWeather.
    by apply (try_catch_rethrow_Throw _
                (λ error, newError (orElseStr (message error)
                                      "Failed to fetch weather data"))). }
  split; [exact Hrejects |].
  destruct (joined_fetch_rejects W targetCity (st_unit st)) as [err Herr];
    [by left |].
  rewrite (fetchData_rejected_state W targetCity intent st err Herr). cbn.
  by repeat split.
Qed.

(** X20 on Paris while the air-quality service is out of order. *)
Lemma air_quality_failure_fails_the_search_witness :
  currentWeather (fetchData airlessParis "Paris" None showingParis).1 = None
  ∧ forecast (fetchData airlessParis "Paris" None showingParis).1 = None
  ∧ is_Some (error (fetchData airlessParis "Paris" None showingParis).1).
Proof.
  destruct (air_quality_failure_fails_the_search airlessParis "Paris" None
              showingParis paris) as (_ & Hweather & Hforecast & Herror).
  - reflexivity.
  - intros adata Hadata. vm_compute in Hadata. discriminate.
  - by repeat split.
Defined.
